(** * CSM17 meeting assistant: a shallow embedding of [app.py]

    The helper functions of [app.py] and the decision logic of its page script
    are embedded as Rocq functions:

    - [check_audio_volume] (lines 45-56), over the frames that Python's
      [wave] module reads out of the recorded bytes;
    - the volume gate of the page script (lines 141-153);
    - the candidate-model loop (lines 163-188);
    - [extract_section] (lines 191-195), over a backtracking matcher for the
      fragment of Python's [re] syntax that the pattern of line 193 uses;
    - [send_to_slack] (lines 67-99), with [requests.post] as a call that
      answers or raises;
    - [save_audio_file] (lines 58-65), over a file system;
    - the sidebar (lines 108-113) and the clicks of the page script
      (lines 150-253), over the files, the session and what goes out.

    Python values are modelled as follows.  A [str] is the list of its code
    points; [bytes] is a list of bytes; a NumPy [int16] is a [Z] with its
    wrap-around written out; a NumPy [float64] is a primitive binary64 float;
    an exception is a value carried by the [Raise] constructor of [outcome]. *)

From Stdlib Require Import ZArith NArith List Bool Lia String Ascii.
From Stdlib Require Import Floats.PrimFloat Numbers.Cyclic.Int63.Uint63.
Import ListNotations.

(** ** Python values *)

(** A Python [str]: its code points. *)
Definition pystr := list N.

(** The code points of an ASCII literal. *)
Definition u (s : string) : pystr :=
  List.map N_of_ascii (list_ascii_of_string s).

(** A Python exception: the name of its class and its message. *)
Record exn := Exception { exn_class : string; exn_msg : string }.

(** What the evaluation of a Python expression or block comes to. *)
Inductive outcome (A : Type) : Type :=
| Ret (a : A)
| Raise (e : exn).
Arguments Ret {A} a.
Arguments Raise {A} e.

Definition bind {A B : Type} (m : outcome A) (f : A -> outcome B) : outcome B :=
  match m with
  | Ret a => f a
  | Raise e => Raise e
  end.

(** [try: body / except Exception as e: handler e]. *)
Definition try_except {A : Type} (body : outcome A) (handler : exn -> outcome A)
  : outcome A :=
  match body with
  | Ret a => Ret a
  | Raise e => handler e
  end.

Declare Scope py_scope.
Delimit Scope py_scope with py.
Notation "x <- m ;; k" := (bind m (fun x => k))
  (at level 61, m at next level, right associativity) : py_scope.

(** The numbers [check_audio_volume] returns: the Python ints [0] and [-1],
    or a NumPy [float64]. *)
Inductive pynum : Type :=
| PyInt (z : Z)
| PyFloat (f : float).

(** ** Volume check *)

Module Volume.
Open Scope Z_scope.

(** One element of a NumPy [int16] array: the value is reduced to
    [-32768 .. 32767] after every arithmetic operation. *)
Definition wrap16 (z : Z) : Z := (z + 32768) mod 65536 - 32768.

(** [np.frombuffer(frames, dtype=np.int16)]: little-endian pairs of bytes; a
    buffer of odd length is a [ValueError]. *)
Fixpoint frombuffer_int16 (frames : list Byte.byte) : outcome (list Z) :=
  match frames with
  | [] => Ret []
  | [_] => Raise (Exception "ValueError"
                    "buffer size must be a multiple of element size")
  | lo :: hi :: rest =>
      match frombuffer_int16 rest with
      | Ret l =>
          Ret (wrap16 (Z.of_N (Byte.to_N lo) + 256 * Z.of_N (Byte.to_N hi)) :: l)
      | Raise e => Raise e
      end
  end.

(** [audio_data**2]: the power of an [int16] array by a Python int is an
    [int16] array again. *)
Definition square_int16 (audio_data : list Z) : list Z :=
  List.map (fun s => wrap16 (s * s)) audio_data.

(** The conversion of an integer to [float64]; exact below [2^53] in
    magnitude, which the sum of fewer than [2^38] [int16] values is. *)
Definition float_of_Z (z : Z) : float :=
  if z <? 0 then PrimFloat.opp (PrimFloat.of_uint63 (Uint63.of_Z (- z)))
  else PrimFloat.of_uint63 (Uint63.of_Z z).

Definition sumZ (l : list Z) : Z := List.fold_left Z.add l 0.

(** [np.mean] of an integer array: the sum is accumulated in [float64] (every
    partial sum is an integer below [2^53], so the accumulation is exact) and
    divided by the number of elements. *)
Definition np_mean (a : list Z) : float :=
  PrimFloat.div (float_of_Z (sumZ a)) (float_of_Z (Z.of_nat (List.length a))).

(** [np.sqrt]: the square root of a negative number is [nan] (a warning, not
    an exception). *)
Definition np_sqrt (x : float) : float := PrimFloat.sqrt x.

Section CheckAudioVolume.

(** [wave.open(io.BytesIO(audio_bytes), 'rb')] followed by
    [wf.readframes(wf.getnframes())], from Python's standard library: it
    raises on bytes that are not a waveform container, and returns the bytes
    of the data chunk otherwise. *)
Variable wave_readframes : list Byte.byte -> outcome (list Byte.byte).

(** The body of the [try] block, lines 47-53. *)
Definition check_audio_volume_body (audio_bytes : list Byte.byte)
  : outcome pynum :=
  (frames <- wave_readframes audio_bytes ;;
   if (List.length frames =? 0)%nat then Ret (PyInt 0) else
   audio_data <- frombuffer_int16 frames ;;
   if (List.length audio_data =? 0)%nat then Ret (PyInt 0) else
   let rms := np_sqrt (np_mean (square_int16 audio_data)) in
   Ret (PyFloat rms))%py.

(** Lines 45-56. *)
Definition check_audio_volume (audio_bytes : list Byte.byte) : outcome pynum :=
  try_except (check_audio_volume_body audio_bytes)
             (fun e => Ret (PyInt (-1))).

End CheckAudioVolume.

(** A mono 16-bit PCM recording of one sample, 16000 samples a second: the
    44 bytes of the RIFF header ([RIFF], [WAVE], the [fmt ] chunk, the
    [data] chunk of 2 bytes), then the frame. *)
Definition wav_one_sample (lo hi : Byte.byte) : list Byte.byte :=
  [Byte.x52; Byte.x49; Byte.x46; Byte.x46; Byte.x26; Byte.x00;
   Byte.x00; Byte.x00; Byte.x57; Byte.x41; Byte.x56; Byte.x45;
   Byte.x66; Byte.x6d; Byte.x74; Byte.x20; Byte.x10; Byte.x00;
   Byte.x00; Byte.x00; Byte.x01; Byte.x00; Byte.x01; Byte.x00;
   Byte.x80; Byte.x3e; Byte.x00; Byte.x00; Byte.x00; Byte.x7d;
   Byte.x00; Byte.x00; Byte.x02; Byte.x00; Byte.x10; Byte.x00;
   Byte.x64; Byte.x61; Byte.x74; Byte.x61; Byte.x02; Byte.x00;
   Byte.x00; Byte.x00;
   lo; hi].

(** The root-mean-square of the sample values themselves, as the radicand
    before rounding: the sum of the exact squares, and the number of samples. *)
Definition exact_square_sum (audio_data : list Z) : Z :=
  sumZ (List.map (fun s => s * s) audio_data).

End Volume.

(** ** The volume gate of the page script *)

Module Gate.
Open Scope Z_scope.

(** [rms_val < n] for a Python int [n]: an int is compared as an integer, a
    [float64] as a float ([nan < n] is [False]). *)
Definition py_lt (rms_val : pynum) (n : Z) : bool :=
  match rms_val with
  | PyInt z => z <? n
  | PyFloat f => PrimFloat.ltb f (Volume.float_of_Z n)
  end.

(** The calls of the page script on the user interface, by the message. *)
Inductive st_call : Type :=
| st_error_silence_detected      (* line 144 *)
| st_warning_very_quiet          (* line 146 *)
| st_success_recorded            (* line 148 *)
| st_error_cannot_analyze.       (* line 152 *)

(** Lines 143-148: the feedback shown once a recording is there. *)
Definition volume_feedback (rms_val : pynum) : st_call :=
  if py_lt rms_val 5 then st_error_silence_detected
  else if py_lt rms_val 15 then st_warning_very_quiet
  else st_success_recorded.

(** What a click on the analyze button comes to. *)
Inductive analyze_action : Type :=
| Blocked (shown : st_call)
| Proceeds.

(** Lines 150-153. *)
Definition analyze_button (rms_val : pynum) : analyze_action :=
  if py_lt rms_val 5 then Blocked st_error_cannot_analyze
  else Proceeds.

(** Lines 138-153, from the recorded bytes: the feedback, and the action of
    the analyze button. *)
Definition page_gate (wave_readframes : list Byte.byte -> outcome (list Byte.byte))
    (audio_bytes : list Byte.byte) : outcome (st_call * analyze_action) :=
  (rms_val <- Volume.check_audio_volume wave_readframes audio_bytes ;;
   Ret (volume_feedback rms_val, analyze_button rms_val))%py.

End Gate.

(** ** The candidate-model loop *)

Module Requester.

(** Line 163. *)
Definition candidate_models : list pystr :=
  [u "models/gemini-2.0-flash"; u "models/gemini-flash-latest"].

(** The truth value of a Python [str]. *)
Definition truthy (s : pystr) : bool :=
  match s with [] => false | _ :: _ => true end.

(** The variables of the loop, and the calls made so far (oldest first). *)
Record loop_state : Type := LoopState {
  full_result : option pystr;
  last_error : option exn;
  calls : list pystr
}.

(** What lines 186-188 make of the loop. *)
Inductive analysis : Type :=
| AnalysisFailed (reported : option exn)   (* st.error(...); st.stop() *)
| Analysed (text : pystr).

Section Loop.

(** Lines 178-180 for the [i]-th pass of the loop:
    [genai.GenerativeModel(model_name).generate_content(...)] and the [text]
    of its response, as the remote service answers that call. *)
Variable generate_content : nat -> pystr -> outcome pystr.

(** Lines 176-184; [i] counts the passes. *)
Fixpoint for_models (models : list pystr) (i : nat) (st : loop_state)
  : loop_state :=
  match models with
  | [] => st
  | model_name :: rest =>
      let called := calls st ++ [model_name] in
      match generate_content i model_name with
      | Ret text =>
          let st' := LoopState (Some text) (last_error st) called in
          if truthy text then st' (* break *)
          else for_models rest (S i) st'
      | Raise e =>
          for_models rest (S i) (LoopState (full_result st) (Some e) called)
      end
  end.

(** Lines 165-166 and 176-184. *)
Definition run_loop (models : list pystr) : loop_state :=
  for_models models 0 (LoopState None None []).

(** Lines 186-188: [if not full_result]. *)
Definition conclude (st : loop_state) : analysis :=
  match full_result st with
  | Some text => if truthy text then Analysed text
                 else AnalysisFailed (last_error st)
  | None => AnalysisFailed (last_error st)
  end.

Definition analyze (models : list pystr) : analysis :=
  conclude (run_loop models).

End Loop.

(** A call that neither raises nor returns a non-empty text. *)
Definition unusable (o : outcome pystr) : bool :=
  match o with
  | Ret text => negb (truthy text)
  | Raise _ => true
  end.

(** The error of the last call that raised, among the answers of a whole
    pass over [models] from pass [i] on; [earlier] is what was recorded
    before. *)
Fixpoint last_raised (generate_content : nat -> pystr -> outcome pystr)
    (models : list pystr) (i : nat) (earlier : option exn) : option exn :=
  match models with
  | [] => earlier
  | model_name :: rest =>
      match generate_content i model_name with
      | Raise e => last_raised generate_content rest (S i) (Some e)
      | Ret _ => last_raised generate_content rest (S i) earlier
      end
  end.

(** Every call of a pass over [models] that starts at pass [i] is
    unusable. *)
Definition all_unusable (generate_content : nat -> pystr -> outcome pystr)
    (models : list pystr) (i : nat) : Prop :=
  forall j model_name,
    nth_error models j = Some model_name ->
    unusable (generate_content (i + j) model_name) = true.

End Requester.

(** ** Python's [re], for the pattern of [extract_section] *)

Module Re.
Open Scope N_scope.

(** What matches one character: a given code point, or (under [re.DOTALL])
    any character. *)
Inductive cset : Type :=
| CLit (c : N)
| CAny.

Definition cset_mem (cs : cset) (x : N) : bool :=
  match cs with
  | CLit c => N.eqb x c
  | CAny => true
  end.

(** The patterns of the modelled fragment: literals and escaped literals,
    [.], [$], [*] and [*?] on one character, sequences, [|], capture groups
    and the lookahead [(?=...)]. *)
Inductive regex : Type :=
| Empty
| Chr (cs : cset)
| Eos
| Star (greedy : bool) (cs : cset)
| Seq (r1 r2 : regex)
| Alt (r1 r2 : regex)
| Group (n : nat) (r : regex)
| Look (r : regex).

(** The spans of the groups that took part in a match, the latest first. *)
Definition captures := list (nat * (nat * nat)).

Fixpoint span (c : captures) (n : nat) : option (nat * nat) :=
  match c with
  | [] => None
  | (g, s) :: rest => if Nat.eqb g n then Some s else span rest n
  end.

(** The rest of the match, from the remaining text, the position and the
    captures reached. *)
Definition cont := list N -> nat -> captures -> option captures.

(** [x*]: as many characters as possible first. *)
Fixpoint star_greedy (cs : cset) (rest : list N) (pos : nat) (c : captures)
    (k : cont) : option captures :=
  match rest with
  | x :: tl =>
      if cset_mem cs x then
        match star_greedy cs tl (S pos) c k with
        | Some r => Some r
        | None => k rest pos c
        end
      else k rest pos c
  | [] => k rest pos c
  end.

(** [x*?]: as few characters as possible first. *)
Fixpoint star_lazy (cs : cset) (rest : list N) (pos : nat) (c : captures)
    (k : cont) : option captures :=
  match k rest pos c with
  | Some r => Some r
  | None =>
      match rest with
      | x :: tl => if cset_mem cs x then star_lazy cs tl (S pos) c k else None
      | [] => None
      end
  end.

(** The backtracking matcher: the first way, in the order Python tries them,
    to match [r] at [rest] and then the continuation. *)
Fixpoint matches (r : regex) (rest : list N) (pos : nat) (c : captures)
    (k : cont) {struct r} : option captures :=
  match r with
  | Empty => k rest pos c
  | Chr cs =>
      match rest with
      | x :: tl => if cset_mem cs x then k tl (S pos) c else None
      | [] => None
      end
  | Eos =>
      (* without re.MULTILINE: at the end, or before a newline that ends
         the text *)
      match rest with
      | [] => k rest pos c
      | [x] => if x =? 10 then k rest pos c else None
      | _ :: _ :: _ => None
      end
  | Star true cs => star_greedy cs rest pos c k
  | Star false cs => star_lazy cs rest pos c k
  | Seq r1 r2 =>
      matches r1 rest pos c (fun rest' pos' c' => matches r2 rest' pos' c' k)
  | Alt r1 r2 =>
      match matches r1 rest pos c k with
      | Some res => Some res
      | None => matches r2 rest pos c k
      end
  | Group n r1 =>
      matches r1 rest pos c
        (fun rest' pos' c' => k rest' pos' ((n, (pos, pos')) :: c'))
  | Look r1 =>
      match matches r1 rest pos c (fun _ _ c' => Some c') with
      | Some c' => k rest pos c'
      | None => None
      end
  end.

(** [re.search]: the match at the leftmost position that has one. *)
Fixpoint search_from (r : regex) (rest : list N) (pos : nat)
  : option captures :=
  match matches r rest pos [] (fun _ _ c => Some c) with
  | Some c => Some c
  | None =>
      match rest with
      | [] => None
      | _ :: tl => search_from r tl (S pos)
      end
  end.

Definition search (r : regex) (text : pystr) : option captures :=
  search_from r text 0.

(** *** The parser *)

(** What compiling a pattern comes to: a pattern of the fragment, an
    [re.error], or a pattern outside the fragment. *)
Inductive parsed (A : Type) : Type :=
| POk (a : A)
| PError (e : exn)
| PUnmodelled.
Arguments POk {A} a.
Arguments PError {A} e.
Arguments PUnmodelled {A}.

(** The characters with a meaning of their own in a pattern. *)
Definition special (c : N) : bool :=
  existsb (N.eqb c) (u ".\[{()*+?^$|").

(** The characters that start a repetition. *)
Definition repeat_char (c : N) : bool :=
  existsb (N.eqb c) (u "*+?{").

Definition ascii_alnum (c : N) : bool :=
  ((48 <=? c) && (c <=? 57)) || ((65 <=? c) && (c <=? 90))
  || ((97 <=? c) && (c <=? 122)).

Definition starts_repeat (inp : list N) : bool :=
  match inp with
  | c :: _ => repeat_char c
  | [] => false
  end.

(** No repetition starts here. *)
Definition no_repeat_ahead (inp : list N) : Prop :=
  match inp with
  | [] => True
  | c :: _ => (c =? 42) = false /\ repeat_char c = false
  end.

(** An item that the fragment does not repeat: nothing that starts a
    repetition may follow. *)
Definition unrepeated (r : regex) (inp : list N) (ng : nat)
  : parsed (regex * list N * nat) :=
  if starts_repeat inp then PUnmodelled else POk (r, inp, ng).

(** One character, and the [*] or [*?] after it. *)
Definition repeated (cs : cset) (inp : list N) (ng : nat)
  : parsed (regex * list N * nat) :=
  match inp with
  | c :: rest =>
      if c =? 42 then
        match rest with
        | d :: rest' =>
            if d =? 63 then unrepeated (Star false cs) rest' ng
            else unrepeated (Star true cs) rest ng
        | [] => unrepeated (Star true cs) rest ng
        end
      else unrepeated (Chr cs) inp ng
  | [] => unrepeated (Chr cs) inp ng
  end.

Definition missing_paren : exn :=
  Exception "re.error" "missing ), unterminated subpattern".

Definition unbalanced_paren : exn :=
  Exception "re.error" "unbalanced parenthesis".

(** The body of a group, closed by its parenthesis. *)
Definition close_group (wrap : regex -> regex)
    (body : parsed (regex * list N * nat)) : parsed (regex * list N * nat) :=
  match body with
  | POk (r, c :: rest, ng) =>
      if c =? 41 then unrepeated (wrap r) rest ng else PUnmodelled
  | POk (_, [], _) => PError missing_paren
  | PError e => PError e
  | PUnmodelled => PUnmodelled
  end.

(** The end of a sequence: the end of the pattern, [|] or [)]. *)
Definition ends_sequence (inp : list N) : bool :=
  match inp with
  | [] => true
  | c :: _ => (c =? 124) || (c =? 41)
  end.

(** Alternatives, sequences and items; [ng] counts the groups opened so far.
    The fuel bounds the depth of the recursion. *)
Fixpoint parse_alt (fuel : nat) (inp : list N) (ng : nat) {struct fuel}
  : parsed (regex * list N * nat) :=
  match fuel with
  | O => PUnmodelled
  | S f =>
      match parse_seq f inp ng with
      | POk (r1, c :: rest, ng1) =>
          if c =? 124 then
            match parse_alt f rest ng1 with
            | POk (r2, rest2, ng2) => POk (Alt r1 r2, rest2, ng2)
            | other => other
            end
          else POk (r1, c :: rest, ng1)
      | other => other
      end
  end
with parse_seq (fuel : nat) (inp : list N) (ng : nat) {struct fuel}
  : parsed (regex * list N * nat) :=
  match fuel with
  | O => PUnmodelled
  | S f =>
      if ends_sequence inp then POk (Empty, inp, ng)
      else
        match parse_item f inp ng with
        | POk (r1, rest, ng1) =>
            match parse_seq f rest ng1 with
            | POk (r2, rest2, ng2) => POk (Seq r1 r2, rest2, ng2)
            | other => other
            end
        | other => other
        end
  end
with parse_item (fuel : nat) (inp : list N) (ng : nat) {struct fuel}
  : parsed (regex * list N * nat) :=
  match fuel with
  | O => PUnmodelled
  | S f =>
      match inp with
      | [] => PUnmodelled
      | c :: rest =>
          if c =? 92 then
            (* an escape: a character that is no ASCII letter or digit
               stands for itself *)
            match rest with
            | d :: rest' =>
                if ascii_alnum d then PUnmodelled
                else repeated (CLit d) rest' ng
            | [] => PUnmodelled
            end
          else if c =? 46 then repeated CAny rest ng
          else if c =? 36 then unrepeated Eos rest ng
          else if c =? 40 then
            match rest with
            | 63 :: 61 :: rest' => close_group Look (parse_alt f rest' ng)
            | 63 :: _ => PUnmodelled
            | _ => close_group (Group (S ng)) (parse_alt f rest (S ng))
            end
          else if special c then PUnmodelled
          else repeated (CLit c) rest ng
      end
  end.

(** [re.compile]: the pattern and the number of its groups. *)
Definition compile (pattern : pystr) : parsed (regex * nat) :=
  match parse_alt (3 * List.length pattern + 4) pattern 0 with
  | POk (r, [], ng) => POk (r, ng)
  | POk (_, c :: _, _) =>
      if c =? 41 then PError unbalanced_paren else PUnmodelled
  | PError e => PError e
  | PUnmodelled => PUnmodelled
  end.

End Re.

(** ** Occurrences of a string in a string *)

Module Text.
Open Scope N_scope.

(** [s] starts with [p]. *)
Fixpoint starts_with (p s : pystr) : bool :=
  match p, s with
  | [], _ => true
  | a :: p', b :: s' => (a =? b) && starts_with p' s'
  | _ :: _, [] => false
  end.

(** What follows the first occurrence of [p] in [s], if there is one. *)
Fixpoint after_first (p s : pystr) : option pystr :=
  if starts_with p s then Some (List.skipn (List.length p) s)
  else
    match s with
    | [] => None
    | _ :: rest => after_first p rest
    end.

(** [p in s]. *)
Definition occurs (p s : pystr) : bool :=
  match after_first p s with
  | Some _ => true
  | None => false
  end.

End Text.

(** ** Section extraction *)

Module Extractor.
Import Text.
Open Scope N_scope.

(** [str.isspace] on one character: the code points Python counts as
    whitespace. *)
Definition isspace (c : N) : bool :=
  ((9 <=? c) && (c <=? 13)) || ((28 <=? c) && (c <=? 32))
  || (c =? 133) || (c =? 160) || (c =? 5760)
  || ((8192 <=? c) && (c <=? 8202))
  || (c =? 8232) || (c =? 8233) || (c =? 8239) || (c =? 8287) || (c =? 12288).

Fixpoint lstrip (s : pystr) : pystr :=
  match s with
  | c :: rest => if isspace c then lstrip rest else s
  | [] => []
  end.

Definition rstrip (s : pystr) : pystr := List.rev (lstrip (List.rev s)).

(** [str.strip()]: the whitespace at the left end goes, then the whitespace
    at the right end of what is left. *)
Definition strip (s : pystr) : pystr := rstrip (lstrip s).

(** [text[i:j]]. *)
Definition slice (text : pystr) (i j : nat) : pystr :=
  List.firstn (j - i) (List.skipn i text).

(** [match.group(1).strip()], line 195: [group(1)] is an [IndexError] in a
    pattern without groups, and [None] (which has no [strip]) for a group
    that took no part in the match. *)
Definition group1_strip (ngroups : nat) (text : pystr) (m : Re.captures)
  : outcome pystr :=
  if Nat.ltb ngroups 1 then Raise (Exception "IndexError" "no such group")
  else
    match Re.span m 1 with
    | Some (i, j) => Ret (strip (slice text i j))
    | None =>
        Raise (Exception "AttributeError"
                 "'NoneType' object has no attribute 'strip'")
    end.

(** Line 193: the f-string. *)
Definition pattern_of (section_name : pystr) : pystr :=
  u "\[" ++ section_name ++ u "\](.*?)(?=\[|$)".

(** Lines 191-195.  [None] is a pattern outside the modelled fragment of
    [re]. *)
Definition extract_section (text section_name : pystr)
  : option (outcome pystr) :=
  match Re.compile (pattern_of section_name) with
  | Re.PUnmodelled => None
  | Re.PError e => Some (Raise e)
  | Re.POk (r, ngroups) =>
      match Re.search r text with
      | Some m => Some (group1_strip ngroups text m)
      | None => Some (Ret [])
      end
  end.

(** Lines 197-199: the three sections of a response. *)
Definition three_line_label : pystr := u "3-Line Summary".
Definition todo_label : pystr := u "To-do List".
Definition detailed_label : pystr := u "Detailed Summary".

(** The section labels: the three names [extract_section] is called with. *)
Definition section_names : list pystr :=
  [three_line_label; todo_label; detailed_label].

(** *** The pattern of a label without special characters *)

(** The characters of [label] one after the other, then [r]. *)
Definition literals (label : pystr) (r : Re.regex) : Re.regex :=
  List.fold_right (fun c rest => Re.Seq (Re.Chr (Re.CLit c)) rest) r label.

(** [\](.*?)(?=\[|$)], as the parser reads it. *)
Definition tail_regex : Re.regex :=
  Re.Seq (Re.Chr (Re.CLit 93))
    (Re.Seq (Re.Group 1 (Re.Seq (Re.Star false Re.CAny) Re.Empty))
       (Re.Seq
          (Re.Look (Re.Alt (Re.Seq (Re.Chr (Re.CLit 91)) Re.Empty)
                           (Re.Seq Re.Eos Re.Empty)))
          Re.Empty)).

Definition label_regex (label : pystr) : Re.regex :=
  Re.Seq (Re.Chr (Re.CLit 91)) (literals label tail_regex).

(** Where [(?=\[|$)] holds: before an opening bracket, at the end, and
    before a newline that ends the text. *)
Definition lookahead_holds (rest : pystr) : bool :=
  match rest with
  | [] => true
  | x :: tl =>
      (x =? 91) || ((x =? 10) && match tl with [] => true | _ => false end)
  end.

(** What [(.*?)] takes before the lookahead holds. *)
Fixpoint lazy_body (rest : pystr) : pystr :=
  match rest with
  | [] => []
  | x :: tl => if lookahead_holds rest then [] else x :: lazy_body tl
  end.

(** *** The words of the specification *)

(** A label in which no character has a meaning of its own in a pattern. *)
Definition literal_label (section_name : pystr) : Prop :=
  forall c, In c section_name -> Re.special c = false.

(** The label between its brackets. *)
Definition bracketed (section_name : pystr) : pystr :=
  [91] ++ section_name ++ [93].

(** The text up to the next opening bracket, or to its end. *)
Fixpoint until_bracket (s : pystr) : pystr :=
  match s with
  | [] => []
  | c :: rest => if c =? 91 then [] else c :: until_bracket rest
  end.

(** The section as the specification words it: the text between the first
    bracketed label and the next opening bracket or the end, trimmed; the
    empty string without the label. *)
Definition section_between (text section_name : pystr) : pystr :=
  match after_first (bracketed section_name) text with
  | Some body => strip (until_bracket body)
  | None => []
  end.

(** The span of group 1 in a match of the pattern at [pos], with [rest]
    the text from [pos] on. *)
Definition body_span (label rest : pystr) (pos : nat) : nat * nat :=
  ((pos + List.length (bracketed label))%nat,
   (pos + List.length (bracketed label)
    + List.length
        (lazy_body (List.skipn (List.length (bracketed label)) rest)))%nat).

End Extractor.

(** ** The notification sender *)

Module Slack.
Open Scope N_scope.

(** A Python [dict] with [str] keys and [str] values: the entries, the first
    entry of a key being the one in force. *)
Definition pydict := list (string * pystr).

(** [d.get(key)]. *)
Fixpoint dict_get (d : pydict) (key : string) : option pystr :=
  match d with
  | [] => None
  | (k, v) :: rest => if String.eqb k key then Some v else dict_get rest key
  end.

(** The truth value of [d.get(key)]: [None] and [""] are false. *)
Definition truthy_get (d : pydict) (key : string) : bool :=
  match dict_get d key with
  | Some v => Requester.truthy v
  | None => false
  end.

(** [d[key]], read only where [d.get(key)] is true. *)
Definition dict_item (d : pydict) (key : string) : pystr :=
  match dict_get d key with
  | Some v => v
  | None => []
  end.

(** [channel.startswith(c)] for a one-character [c]. *)
Definition startswith1 (channel : pystr) (c : N) : bool :=
  match channel with
  | x :: _ => x =? c
  | [] => false
  end.

(** Lines 71-72. *)
Definition normalize_channel (channel : pystr) : pystr :=
  if negb (startswith1 channel 35) && negb (startswith1 channel 67)
  then 35 :: channel
  else channel.

(** The literals of lines 75-91. *)
Definition header_open : pystr :=
  [42; 127897; 65039; 32; 50472; 50640; 49828; 50656; 49; 55; 32; 54924;
   51032; 32; 44592; 47197; 32; 50756; 47308; 32; 40].
Definition header_close : pystr := [41; 42; 10; 10].
Definition attendants_heading : pystr :=
  [42; 128101; 32; 52280; 50668; 51088; 42; 58; 32].
Definition context_heading : pystr :=
  [42; 128161; 32; 54924; 51032; 32; 47785; 51201; 32; 48143; 32; 48176;
   44221; 42; 58; 32].
Definition three_line_heading : pystr :=
  [42; 10024; 32; 51; 51460; 32; 50836; 50557; 42; 10].
Definition todo_heading : pystr :=
  [42; 9889; 32; 54624; 32; 51068; 32; 40; 84; 111; 45; 68; 111; 41; 42; 10].
Definition detailed_heading : pystr :=
  [42; 128204; 32; 49345; 49464; 32; 50836; 50557; 42; 10].

(** Lines 75-91; [now] is [datetime.now().strftime('%Y-%m-%d %H:%M')]. *)
Definition build_message (now attendants context : pystr)
    (summary_data : pydict) : pystr :=
  let message := header_open ++ now ++ header_close in
  let message :=
    if Requester.truthy attendants
    then message ++ attendants_heading ++ attendants ++ [10] else message in
  let message :=
    if Requester.truthy context
    then message ++ context_heading ++ context ++ [10] else message in
  let message := message ++ [10] in
  let message :=
    if truthy_get summary_data "three_line"
    then message ++ three_line_heading
                 ++ dict_item summary_data "three_line" ++ [10; 10]
    else message in
  let message :=
    if truthy_get summary_data "todo"
    then message ++ todo_heading ++ dict_item summary_data "todo" ++ [10; 10]
    else message in
  let message :=
    if truthy_get summary_data "detailed"
    then message ++ detailed_heading
                 ++ dict_item summary_data "detailed" ++ [10; 10]
    else message in
  message.

(** Lines 93-96. *)
Record payload : Type := Payload {
  payload_channel : pystr;
  payload_text : pystr
}.

Definition slack_payload (now channel : pystr) (summary_data : pydict)
    (attendants context : pystr) : payload :=
  let channel := normalize_channel channel in
  Payload channel (build_message now attendants context summary_data).

Section Send.

(** The answer of the chat service, as [response.json()]. *)
Variable response : Type.

(** [requests.post(url, headers=headers, json=payload)] and the [json()] of
    its response; the header carries the token.  The post raises where the
    service cannot be reached, and [json()] where the answer is no JSON. *)
Variable requests_post : string -> pystr -> payload -> outcome response.

(** Lines 67-99: nothing in the function catches what the post raises. *)
Definition send_to_slack (now token channel : pystr) (summary_data : pydict)
    (attendants context : pystr) : outcome response :=
  let url := "https://slack.com/api/chat.postMessage"%string in
  requests_post url token
    (slack_payload now channel summary_data attendants context).

End Send.

(** *** The words of the specification *)

(** The parts of a message. *)
Inductive part : Type :=
| Header | Attendees | Context | Brief | ActionItems | Detailed.

(** The inputs of one message. *)
Record inputs : Type := Inputs {
  in_now : pystr;
  in_attendants : pystr;
  in_context : pystr;
  in_summary : pydict
}.

(** The field behind a part. *)
Definition field (i : inputs) (p : part) : pystr :=
  match p with
  | Header => in_now i
  | Attendees => in_attendants i
  | Context => in_context i
  | Brief => dict_item (in_summary i) "three_line"
  | ActionItems => dict_item (in_summary i) "todo"
  | Detailed => dict_item (in_summary i) "detailed"
  end.

(** The heading of a part, and what closes it. *)
Definition heading (p : part) : pystr :=
  match p with
  | Header => header_open
  | Attendees => attendants_heading
  | Context => context_heading
  | Brief => three_line_heading
  | ActionItems => todo_heading
  | Detailed => detailed_heading
  end.

Definition closing (p : part) : pystr :=
  match p with
  | Header => header_close
  | Attendees | Context => [10]
  | Brief | ActionItems | Detailed => [10; 10]
  end.

(** A part is there when its field is not empty; the header always is. *)
Definition present (i : inputs) (p : part) : bool :=
  match p with
  | Header => true
  | _ => Requester.truthy (field i p)
  end.

Definition render (i : inputs) (p : part) : pystr :=
  heading p ++ field i p ++ closing p.

Definition render_present (i : inputs) (ps : list part) : pystr :=
  List.concat (List.map (render i) (List.filter (present i) ps)).

(** The message as the specification words it: the parts that are there, in
    the fixed order, a blank line closing the block of header, attendees and
    context. *)
Definition assembled (i : inputs) : pystr :=
  render_present i [Header; Attendees; Context] ++ [10]
  ++ render_present i [Brief; ActionItems; Detailed].

(** The sign that only the heading of a part carries. *)
Definition sign (p : part) : N :=
  match p with
  | Header => 127897
  | Attendees => 128101
  | Context => 128161
  | Brief => 10024
  | ActionItems => 9889
  | Detailed => 128204
  end.

End Slack.

(** ** Programs with a state and exceptions *)

(** A block of Python that reads and changes a state of type [S] and returns
    an [A] or raises: the state it leaves is there in both cases. *)
Definition prog (S A : Type) : Type := S -> outcome A * S.

Definition pure {S A : Type} (a : A) : prog S A := fun s => (Ret a, s).

Definition throw {S A : Type} (e : exn) : prog S A := fun s => (Raise e, s).

Definition seq {S A B : Type} (m : prog S A) (f : A -> prog S B) : prog S B :=
  fun s =>
    match m s with
    | (Ret a, s') => f a s'
    | (Raise e, s') => (Raise e, s')
    end.

Definition get {S : Type} : prog S S := fun s => (Ret s, s).

Definition modify {S : Type} (f : S -> S) : prog S unit :=
  fun s => (Ret tt, f s).

(** [try: body / except Exception as e: handler e], on a state. *)
Definition catch {S A : Type} (body : prog S A) (handler : exn -> prog S A)
  : prog S A :=
  fun s =>
    match body s with
    | (Ret a, s') => (Ret a, s')
    | (Raise e, s') => handler e s'
    end.

Declare Scope prog_scope.
Delimit Scope prog_scope with prog.
Notation "x <~ m ;; k" := (seq m (fun x => k))
  (at level 61, m at next level, right associativity) : prog_scope.
Notation "m ;;; k" := (seq m (fun _ => k))
  (at level 61, right associativity) : prog_scope.

(** ** Saving the recording *)

Module Files.
Open Scope N_scope.

Fixpoint pystr_eqb (a b : pystr) : bool :=
  match a, b with
  | [], [] => true
  | x :: a', y :: b' => (x =? y) && pystr_eqb a' b'
  | _, _ => false
  end.

(** What a path names: a directory, or a file with its content. *)
Inductive node : Type :=
| Dir
| File (content : list Byte.byte).

(** The files and directories under the working directory, by their path
    (without permissions, links or quotas). *)
Definition filesystem := pystr -> option node.

Definition fs_set (fs : filesystem) (path : pystr) (n : node) : filesystem :=
  fun p => if pystr_eqb p path then Some n else fs p.

(** [os.path.exists(path)]. *)
Definition path_exists (path : pystr) : prog filesystem bool :=
  fun fs => (Ret match fs path with Some _ => true | None => false end, fs).

(** [os.makedirs(path)] for a path of one component. *)
Definition makedirs (path : pystr) : prog filesystem unit :=
  fun fs =>
    match fs path with
    | Some _ => (Raise (Exception "FileExistsError" "File exists"), fs)
    | None => (Ret tt, fs_set fs path Dir)
    end.

(** The part of a path before its last ['/'], if it has one. *)
Fixpoint before_last_slash (path : pystr) : option pystr :=
  match path with
  | [] => None
  | c :: rest =>
      match before_last_slash rest with
      | Some d => Some (c :: d)
      | None => if c =? 47 then Some [] else None
      end
  end.

(** Whether a file can be made in the directory part of [path]: the working
    directory is there; another directory has to be. *)
Definition parent_error (fs : filesystem) (path : pystr) : option exn :=
  match before_last_slash path with
  | None => None
  | Some parent =>
      match fs parent with
      | Some Dir => None
      | Some (File _) =>
          Some (Exception "NotADirectoryError" "Not a directory")
      | None =>
          Some (Exception "FileNotFoundError" "No such file or directory")
      end
  end.

(** [with open(path, "wb") as f: f.write(data)]: the file is made, or
    replaced. *)
Definition write_binary (path : pystr) (data : list Byte.byte)
  : prog filesystem unit :=
  fun fs =>
    match parent_error fs path with
    | Some e => (Raise e, fs)
    | None =>
        match fs path with
        | Some Dir =>
            (Raise (Exception "IsADirectoryError" "Is a directory"), fs)
        | _ => (Ret tt, fs_set fs path (File data))
        end
    end.

(** Line 62; [timestamp] is [datetime.now().strftime("%Y%m%d_%H%M%S")]. *)
Definition recording_path (timestamp : pystr) : pystr :=
  u "recordings/meeting_" ++ timestamp ++ u ".wav".

(** Lines 58-65. *)
Definition save_audio_file (timestamp : pystr) (audio_bytes : list Byte.byte)
  : prog filesystem pystr :=
  (there <~ path_exists (u "recordings") ;;
   (if negb there then makedirs (u "recordings") else pure tt) ;;;
   let filename := recording_path timestamp in
   write_binary filename audio_bytes ;;;
   pure filename)%prog.

(** [open(path, "rb").read()], for the properties. *)
Definition read_binary (fs : filesystem) (path : pystr)
  : option (list Byte.byte) :=
  match fs path with
  | Some (File content) => Some content
  | _ => None
  end.

End Files.

(** ** The sidebar: keys and tokens *)

Module Config.

(** [a or b] on values that are [None] or a [str]. *)
Definition py_or (a b : option pystr) : option pystr :=
  match a with
  | Some (_ :: _) => a
  | _ => b
  end.

(** [not x] on a value that is [None] or a [str]. *)
Definition py_not (x : option pystr) : bool :=
  match x with
  | Some (_ :: _) => false
  | _ => true
  end.

(** How the sidebar leaves the script. *)
Inductive startup : Type :=
| Halted                                        (* st.error; st.stop() *)
| Ready (api_key : pystr) (slack_token : option pystr).

Section Sidebar.

(** [st.secrets.get(key)], which raises where the platform has no secrets
    at all, and [os.getenv(key)] after [load_dotenv()]. *)
Variable secrets_get : string -> outcome (option pystr).
Variable getenv : string -> option pystr.

(** Lines 108-113. *)
Definition sidebar : outcome startup :=
  (from_secrets <- secrets_get "GEMINI_API_KEY" ;;
   let api_key := py_or from_secrets (getenv "GEMINI_API_KEY") in
   from_secrets <- secrets_get "SLACK_BOT_TOKEN" ;;
   let slack_token := py_or from_secrets (getenv "SLACK_BOT_TOKEN") in
   if py_not api_key then Ret Halted
   else
     match api_key with
     | Some key => Ret (Ready key slack_token)
     | None => Ret Halted
     end)%py.

End Sidebar.

End Config.

(** ** The page script: analysis, results and sending *)

Module Page.
Import Slack.

(** [d[key] = v], [key in d] and [d[key]]. *)
Definition dict_set (d : pydict) (key : string) (v : pystr) : pydict :=
  (key, v) :: d.

Definition dict_has (d : pydict) (key : string) : bool :=
  match dict_get d key with
  | Some _ => true
  | None => false
  end.

Definition getitem (d : pydict) (key : string) : outcome pystr :=
  match dict_get d key with
  | Some v => Ret v
  | None => Raise (Exception "KeyError" key)
  end.

(** The calls on the user interface, by the message. *)
Inductive st_call : Type :=
| volume (c : Gate.st_call)                              (* lines 144-152 *)
| st_info_saved (abs_path : pystr)                       (* line 159 *)
| st_error_analysis_failed (last_error : option exn)     (* line 187 *)
| st_error_analysis_raised (e : exn)                     (* line 202 *)
| st_error_no_token                                      (* line 233 *)
| st_success_sent (selected_channel : pystr)             (* line 249 *)
| st_error_send_failed (error : option pystr)            (* line 251 *)
| st_info_invite_bot.                                    (* line 253 *)

(** What the script works on: the files, [st.session_state], and what went
    out: the models asked, the payloads handed to [requests.post], the
    messages shown (oldest first). *)
Record world : Type := World {
  files : Files.filesystem;
  session_state : pydict;
  requested : list pystr;
  posted : list payload;
  shown : list st_call
}.

(** Whether the script goes on after a block, or [st.stop()] ended it. *)
Inductive flow : Type :=
| Goes_on
| Stopped.

Definition on_files {A : Type} (m : prog Files.filesystem A) : prog world A :=
  fun w =>
    let (r, fs) := m (files w) in
    (r, World fs (session_state w) (requested w) (posted w) (shown w)).

Definition store (key : string) (v : pystr) : prog world unit :=
  modify (fun w => World (files w) (dict_set (session_state w) key v)
                         (requested w) (posted w) (shown w)).

Definition item (key : string) : prog world pystr :=
  fun w => (getitem (session_state w) key, w).

Definition request (models : list pystr) : prog world unit :=
  modify (fun w => World (files w) (session_state w)
                         (requested w ++ models) (posted w) (shown w)).

Definition post (p : payload) : prog world unit :=
  modify (fun w => World (files w) (session_state w) (requested w)
                         (posted w ++ [p]) (shown w)).

Definition show (c : st_call) : prog world unit :=
  modify (fun w => World (files w) (session_state w) (requested w)
                         (posted w) (shown w ++ [c])).

Definition of_outcome {A : Type} (o : outcome A) : prog world A :=
  fun w => (o, w).

(** Lines 197-199; [None] where a pattern is outside the modelled fragment
    of [re]. *)
Definition parse_sections (full_result : pystr) : option (prog world unit) :=
  match Extractor.extract_section full_result Extractor.three_line_label,
        Extractor.extract_section full_result Extractor.todo_label,
        Extractor.extract_section full_result Extractor.detailed_label with
  | Some three, Some todo, Some detailed =>
      Some (v <~ of_outcome three ;; store "res_three" v ;;;
            v <~ of_outcome todo ;; store "res_todo" v ;;;
            v <~ of_outcome detailed ;; store "res_detailed" v)%prog
  | _, _, _ => None
  end.

Section Analyze.

(** The answers of the remote service to the passes of this run of the
    loop. *)
Variable generate_content : nat -> pystr -> outcome pystr.

(** [os.path.abspath], in the working directory of the script. *)
Variable abspath : pystr -> pystr.

(** Lines 163-199: the body of the [try]. *)
Definition analysis_block : option (prog world flow) :=
  let st := Requester.run_loop generate_content Requester.candidate_models in
  match Requester.conclude st with
  | Requester.AnalysisFailed last_error =>
      Some (request (Requester.calls st) ;;;
            show (st_error_analysis_failed last_error) ;;;
            pure Stopped)%prog
  | Requester.Analysed full_result =>
      match parse_sections full_result with
      | Some sections =>
          Some (request (Requester.calls st) ;;; sections ;;; pure Goes_on)%prog
      | None => None
      end
  end.

(** Lines 150-202: a click on the analyze button; [timestamp] is the time
    of the click as line 61 formats it. *)
Definition on_analyze (timestamp : pystr) (audio_bytes : list Byte.byte)
    (rms_val : pynum) : option (prog world flow) :=
  match Gate.analyze_button rms_val with
  | Gate.Blocked c => Some (show (volume c) ;;; pure Goes_on)%prog
  | Gate.Proceeds =>
      match analysis_block with
      | Some block =>
          Some (saved_path <~ on_files
                                (Files.save_audio_file timestamp audio_bytes) ;;
                let abs_path := abspath saved_path in
                store "saved_path" saved_path ;;;
                show (st_info_saved abs_path) ;;;
                catch block
                  (fun e => show (st_error_analysis_raised e) ;;;
                            pure Goes_on))%prog
      | None => None
      end
  end.

End Analyze.

(** Lines 205-218: the results, where there are some. *)
Definition display : prog world (option (pystr * pystr * pystr)) :=
  (w <~ get ;;
   if dict_has (session_state w) "res_detailed" then
     three <~ item "res_three" ;;
     detailed <~ item "res_detailed" ;;
     todo <~ item "res_todo" ;;
     pure (Some (three, detailed, todo))
   else pure None)%prog.

(** Line 224. *)
Definition target_channels : list pystr :=
  [[54924; 51032; 47197];
   [44608; 51008; 50500; 49];
   [44608; 51008; 50500; 50]]%N.

Section Send.

(** The answer of the chat service: [response.json()], a [dict]; the post
    may raise. *)
Variable response : Type.
Variable requests_post : string -> pystr -> payload -> outcome response.

(** The truth of [res.get("ok")], [res.get('error')] and [str(res)]. *)
Variable res_ok : response -> bool.
Variable res_error : response -> option pystr.
Variable res_str : response -> pystr.

(** Lines 231-253: a click on the send button, in a script that shows the
    results; [now] is the time of the click as line 75 formats it.  What
    [send_to_slack] raises is caught nowhere and ends the click. *)
Definition on_send (slack_token : option pystr) (now selected_channel : pystr)
    (attendants meeting_context : pystr) : prog world unit :=
  if Config.py_not slack_token then show st_error_no_token
  else
    (three <~ item "res_three" ;;
     todo <~ item "res_todo" ;;
     detailed <~ item "res_detailed" ;;
     let summary_data :=
       [("three_line"%string, three); ("todo"%string, todo);
        ("detailed"%string, detailed)] in
     let token := match slack_token with Some t => t | None => [] end in
     post (slack_payload now selected_channel summary_data
             attendants meeting_context) ;;;
     res <~ of_outcome
              (send_to_slack response requests_post now token
                 selected_channel summary_data attendants meeting_context) ;;
     if res_ok res then show (st_success_sent selected_channel)
     else
       show (st_error_send_failed (res_error res)) ;;;
       if Text.occurs (u "channel_not_found") (res_str res)
       then show st_info_invite_bot else pure tt)%prog.

End Send.

(** *** The words of the properties *)

(** A response in the form the prompt asks for: some text, then sections,
    each its bracketed label and its body. *)
Definition sections_text (preamble : pystr) (sections : list (pystr * pystr))
  : pystr :=
  preamble
  ++ List.concat
       (List.map (fun s => Extractor.bracketed (fst s) ++ snd s) sections).

(** A session that has just started, in an empty working directory. *)
Definition fresh : world := World (fun _ => None) [] [] [] [].

(** The results are there together, or not at all. *)
Definition results_together (d : pydict) : Prop :=
  dict_has d "res_three" = dict_has d "res_detailed"
  /\ dict_has d "res_todo" = dict_has d "res_detailed".

End Page.

(** * Properties *)

(** ** Channel normalization *)

Section ChannelFacts.
Import Slack.
Open Scope N_scope.

Lemma normalize_channel_sigil (channel : pystr) :
  startswith1 (normalize_channel channel) 35 = true
  \/ startswith1 (normalize_channel channel) 67 = true.
Proof.
  unfold normalize_channel.
  destruct (startswith1 channel 35) eqn:Hhash; cbn [negb andb].
  - left; exact Hhash.
  - destruct (startswith1 channel 67) eqn:HC; cbn [negb].
    + right; exact HC.
    + left; reflexivity.
Qed.

Lemma normalize_channel_fixed (channel : pystr) :
  startswith1 channel 35 = true \/ startswith1 channel 67 = true ->
  normalize_channel channel = channel.
Proof.
  unfold normalize_channel; intros [H | H]; rewrite H; cbn [negb andb].
  - reflexivity.
  - now rewrite Bool.andb_false_r.
Qed.

(** C6: normalizing a channel twice is normalizing it once, and the three
    channels of the specification normalize as it says: ["general"] to
    ["#general"], ["#general"] and ["C0123456"] to themselves. *)
Theorem normalize_channel_idempotent :
  (forall channel : pystr,
      normalize_channel (normalize_channel channel) = normalize_channel channel)
  /\ normalize_channel (u "general") = u "#general"
  /\ normalize_channel (u "#general") = u "#general"
  /\ normalize_channel (u "C0123456") = u "C0123456".
Proof.
  split; [| repeat split; reflexivity].
  intros channel.
  apply normalize_channel_fixed, normalize_channel_sigil.
Qed.

(** C9: only the first character is looked at: a channel that starts with
    ['C'], whatever follows, reaches the payload as it is, without a ['#'];
    ["Cool"] is one. *)
Theorem channel_with_capital_C_unchanged :
  (forall (rest now : pystr) (summary_data : pydict) (attendants context : pystr),
      payload_channel
        (slack_payload now (67 :: rest) summary_data attendants context)
      = 67 :: rest)
  /\ (forall (now : pystr) (summary_data : pydict) (attendants context : pystr),
      payload_channel
        (slack_payload now (u "Cool") summary_data attendants context)
      = u "Cool").
Proof.
  split; intros; reflexivity.
Qed.

End ChannelFacts.

(** ** Volume check *)

Section VolumeFacts.
Import Volume.
Open Scope Z_scope.

Lemma frombuffer_int16_empty (frames : list Byte.byte) :
  frombuffer_int16 frames = Ret [] -> frames = [].
Proof.
  destruct frames as [| lo [| hi rest]]; cbn; try discriminate; auto.
  destruct (frombuffer_int16 rest); discriminate.
Qed.

Lemma check_audio_volume_unreadable
    (wave_readframes : list Byte.byte -> outcome (list Byte.byte))
    (audio_bytes : list Byte.byte) (e : exn) :
  wave_readframes audio_bytes = Raise e ->
  check_audio_volume wave_readframes audio_bytes = Ret (PyInt (-1)).
Proof.
  unfold check_audio_volume, check_audio_volume_body, try_except, bind.
  intros ->; reflexivity.
Qed.

Lemma check_audio_volume_no_frames
    (wave_readframes : list Byte.byte -> outcome (list Byte.byte))
    (audio_bytes : list Byte.byte) :
  wave_readframes audio_bytes = Ret [] ->
  check_audio_volume wave_readframes audio_bytes = Ret (PyInt 0).
Proof.
  unfold check_audio_volume, check_audio_volume_body, try_except, bind.
  intros ->; reflexivity.
Qed.

Lemma check_audio_volume_returns
    (wave_readframes : list Byte.byte -> outcome (list Byte.byte))
    (audio_bytes : list Byte.byte) :
  exists v, check_audio_volume wave_readframes audio_bytes = Ret v.
Proof.
  unfold check_audio_volume, check_audio_volume_body, try_except, bind.
  destruct (wave_readframes audio_bytes) as [frames | e]; [| eauto].
  destruct (List.length frames =? 0)%nat; [eauto |].
  destruct (frombuffer_int16 frames) as [audio_data | e]; [| eauto].
  destruct (List.length audio_data =? 0)%nat; eauto.
Qed.

(** C7: [check_audio_volume] always returns: [-1] when the bytes do not read
    as a waveform, and [0] when they do and hold no frame, or no sample. *)
Theorem check_audio_volume_fails_soft
    (wave_readframes : list Byte.byte -> outcome (list Byte.byte))
    (audio_bytes : list Byte.byte) :
  (exists v, check_audio_volume wave_readframes audio_bytes = Ret v)
  /\ (forall e, wave_readframes audio_bytes = Raise e ->
        check_audio_volume wave_readframes audio_bytes = Ret (PyInt (-1)))
  /\ (wave_readframes audio_bytes = Ret [] ->
        check_audio_volume wave_readframes audio_bytes = Ret (PyInt 0))
  /\ (forall frames, wave_readframes audio_bytes = Ret frames ->
        frombuffer_int16 frames = Ret [] ->
        check_audio_volume wave_readframes audio_bytes = Ret (PyInt 0)).
Proof.
  split; [apply check_audio_volume_returns |].
  split; [apply check_audio_volume_unreadable |].
  split; [apply check_audio_volume_no_frames |].
  intros frames Hframes Hempty.
  apply check_audio_volume_no_frames.
  now rewrite Hframes, (frombuffer_int16_empty _ Hempty).
Qed.

(** Where the squares fit [int16], the array of squares is the array of the
    exact squares. *)
Lemma square_int16_small (audio_data : list Z) :
  Forall (fun s => -181 <= s <= 181) audio_data ->
  sumZ (square_int16 audio_data) = exact_square_sum audio_data.
Proof.
  intros Hsmall. unfold exact_square_sum, square_int16. f_equal.
  induction Hsmall as [| s l Hs _ IH]; cbn; [reflexivity |].
  f_equal; [| exact IH].
  unfold wrap16.
  assert (0 <= s * s <= 32761) by nia.
  rewrite Z.mod_small by lia. lia.
Qed.

(** C1, on the code: a recording of the one sample 256 (frames [00 01]) has
    the root-mean-square 256, the square root of 65536; the [int16] square of
    256 wraps to 0 and the function returns [0.0].  A recording of the one
    sample 200 (frames [c8 00]) makes it return [nan]: the square wraps to
    -25536. *)
Theorem check_audio_volume_wraps_squares
    (wave_readframes : list Byte.byte -> outcome (list Byte.byte)) :
  wave_readframes (wav_one_sample Byte.x00 Byte.x01)
  = Ret [Byte.x00; Byte.x01] ->
  wave_readframes (wav_one_sample Byte.xc8 Byte.x00)
  = Ret [Byte.xc8; Byte.x00] ->
  frombuffer_int16 [Byte.x00; Byte.x01] = Ret [256]
  /\ exact_square_sum [256] = 65536
  /\ check_audio_volume wave_readframes (wav_one_sample Byte.x00 Byte.x01)
     = Ret (PyFloat 0%float)
  /\ frombuffer_int16 [Byte.xc8; Byte.x00] = Ret [200]
  /\ square_int16 [200] = [-25536]
  /\ (exists f,
        check_audio_volume wave_readframes (wav_one_sample Byte.xc8 Byte.x00)
        = Ret (PyFloat f)
        /\ PrimFloat.is_nan f = true).
Proof.
  intros H256 H200.
  unfold check_audio_volume, check_audio_volume_body, try_except, bind.
  rewrite H256, H200.
  repeat split.
  eexists; split; reflexivity.
Qed.

(** With a reader that takes the frames after the 44 bytes of the header. *)
Lemma check_audio_volume_wraps_squares_witness :
  check_audio_volume (fun audio_bytes => Ret (List.skipn 44 audio_bytes))
    (wav_one_sample Byte.x00 Byte.x01)
  = Ret (PyFloat 0%float).
Proof.
  exact (proj1 (proj2 (proj2
    (check_audio_volume_wraps_squares
       (fun audio_bytes => Ret (List.skipn 44 audio_bytes))
       eq_refl eq_refl)))).
Defined.

End VolumeFacts.

Lemma check_audio_volume_fails_soft_witness :
  Volume.check_audio_volume
    (fun _ => Raise (Exception "EOFError" ""))
    [Byte.x00]
  = Ret (PyInt (-1)).
Proof.
  exact (proj1 (proj2
    (check_audio_volume_fails_soft
       (fun _ => Raise (Exception "EOFError" ""))
       [Byte.x00])) _ eq_refl).
Defined.

(** ** The volume gate *)

Section GateFacts.
Import Gate.
Open Scope Z_scope.

(** C2, on the code: bytes that do not read as a waveform (the one byte
    [00] ends before a chunk name is read) get the feedback of a silent
    recording, an error, and the analyze button is blocked. *)
Lemma decode_failure_blocks_analysis :
  page_gate
    (fun _ => Raise (Exception "EOFError" ""))
    [Byte.x00]
  = Ret (st_error_silence_detected, Blocked st_error_cannot_analyze).
Proof. reflexivity. Qed.

(** C2, amended: the analyze button is blocked exactly when [rms_val < 5],
    which is exactly when the feedback is the one of a silent recording; the
    value [-1] of a decode failure is below 5, so that bytes that do not read
    as a waveform are shown as silent and block the analysis, as a recording
    without frames (value 0) does. *)
Theorem analyze_blocked_iff_below_5 :
  (forall rms_val,
      (analyze_button rms_val = Blocked st_error_cannot_analyze
       <-> py_lt rms_val 5 = true)
      /\ (volume_feedback rms_val = st_error_silence_detected
          <-> py_lt rms_val 5 = true)
      /\ (analyze_button rms_val = Proceeds <-> py_lt rms_val 5 = false))
  /\ (forall wave_readframes audio_bytes e,
        wave_readframes audio_bytes = Raise e ->
        page_gate wave_readframes audio_bytes
        = Ret (st_error_silence_detected, Blocked st_error_cannot_analyze))
  /\ (forall wave_readframes audio_bytes,
        wave_readframes audio_bytes = Ret [] ->
        page_gate wave_readframes audio_bytes
        = Ret (st_error_silence_detected, Blocked st_error_cannot_analyze)).
Proof.
  split; [| split].
  - intros rms_val. unfold analyze_button, volume_feedback.
    destruct (py_lt rms_val 5); [| destruct (py_lt rms_val 15)];
      repeat split; intros; try reflexivity; try discriminate.
  - intros wave_readframes audio_bytes e He.
    unfold page_gate.
    now rewrite (check_audio_volume_unreadable _ _ _ He).
  - intros wave_readframes audio_bytes Hempty.
    unfold page_gate.
    now rewrite (check_audio_volume_no_frames _ _ Hempty).
Qed.

End GateFacts.

(** ** The candidate-model loop *)

Section RequesterFacts.
Import Requester.

Variable generate_content : nat -> pystr -> outcome pystr.

Local Abbreviation all_unusable := (Requester.all_unusable generate_content).

Lemma all_unusable_tail (model_name : pystr) (rest : list pystr) (i : nat) :
  all_unusable (model_name :: rest) i ->
  unusable (generate_content i model_name) = true /\ all_unusable rest (S i).
Proof.
  intros H; split.
  - specialize (H 0 model_name eq_refl). now rewrite Nat.add_0_r in H.
  - intros j x Hx. specialize (H (S j) x Hx).
    now rewrite Nat.add_succ_r in H.
Qed.

(** A pass over unusable calls runs to the end of the list: every candidate
    is called, the error kept is the one of the last call that raised, and
    the result is the one before, or an empty text. *)
Lemma for_models_unusable (models : list pystr) :
  forall (i : nat) (st : loop_state),
    all_unusable models i ->
    exists fr,
      for_models generate_content models i st
      = LoopState fr (last_raised generate_content models i (last_error st))
                  (calls st ++ models)
      /\ (fr = full_result st \/ fr = Some []).
Proof.
  induction models as [| model_name rest IH]; intros i st Hall.
  - exists (full_result st). cbn. rewrite app_nil_r. destruct st; auto.
  - apply all_unusable_tail in Hall as [Hhere Hrest].
    cbn [for_models last_raised].
    destruct (generate_content i model_name) as [[| c text] | e];
      cbn in Hhere; try discriminate; cbn [truthy].
    + edestruct (IH (S i)) as (fr & Hrun & Hfr); [exact Hrest |].
      exists fr. rewrite Hrun. cbn. rewrite <- app_assoc.
      split; [reflexivity | destruct Hfr; auto].
    + edestruct (IH (S i)) as (fr & Hrun & Hfr); [exact Hrest |].
      exists fr. rewrite Hrun. cbn. rewrite <- app_assoc.
      split; [reflexivity | destruct Hfr; auto].
Qed.

(** The loop goes through a prefix of unusable calls. *)
Lemma for_models_skip (pre rest : list pystr) :
  forall (i : nat) (st : loop_state),
    all_unusable pre i ->
    for_models generate_content (pre ++ rest) i st
    = for_models generate_content rest (i + List.length pre)
        (for_models generate_content pre i st).
Proof.
  induction pre as [| model_name pre IH]; intros i st Hall.
  - cbn. now rewrite Nat.add_0_r.
  - apply all_unusable_tail in Hall as [Hhere Hrest].
    cbn [for_models app List.length]. rewrite Nat.add_succ_r.
    destruct (generate_content i model_name) as [[| c text] | e];
      cbn in Hhere; try discriminate; cbn [truthy]; now rewrite IH.
Qed.

Lemma conclude_unusable (fr : option pystr) (e : option exn)
    (called : list pystr) :
  fr = None \/ fr = Some [] ->
  conclude (LoopState fr e called) = AnalysisFailed e.
Proof. intros [-> | ->]; reflexivity. Qed.

(** The state the loop leaves after a prefix of unusable calls. *)
Lemma run_loop_prefix (pre : list pystr) :
  all_unusable pre 0 ->
  exists fr,
    run_loop generate_content pre
    = LoopState fr (last_raised generate_content pre 0 None) pre
    /\ (fr = None \/ fr = Some []).
Proof.
  intros Hall.
  destruct (for_models_unusable pre 0%nat (LoopState None None []) Hall)
    as (fr & Hrun & Hfr).
  exists fr. split; [exact Hrun | exact Hfr].
Qed.

Lemma analyze_exhausted (models : list pystr) :
  all_unusable models 0 ->
  analyze generate_content models
  = AnalysisFailed (last_raised generate_content models 0 None)
  /\ calls (run_loop generate_content models) = models.
Proof.
  intros Hall. unfold analyze.
  destruct (run_loop_prefix _ Hall) as (fr & -> & Hfr).
  split; [now apply conclude_unusable | reflexivity].
Qed.

Lemma analyze_first_usable (pre : list pystr) (model_name : pystr)
    (post : list pystr) (text : pystr) :
  all_unusable pre 0 ->
  generate_content (List.length pre) model_name = Ret text ->
  truthy text = true ->
  analyze generate_content (pre ++ model_name :: post) = Analysed text
  /\ calls (run_loop generate_content (pre ++ model_name :: post))
     = pre ++ [model_name].
Proof.
  intros Hall Hcall Htext. unfold analyze, run_loop.
  rewrite (for_models_skip _ _ _ _ Hall). cbn [Nat.add].
  destruct (run_loop_prefix _ Hall) as (fr & Hrun & _).
  unfold run_loop in Hrun. rewrite Hrun. cbn [for_models].
  rewrite Hcall, Htext. unfold conclude. cbn. rewrite Htext. auto.
Qed.

Lemma analyze_last_raises (pre : list pystr) (model_name : pystr) (e : exn) :
  all_unusable pre 0 ->
  generate_content (List.length pre) model_name = Raise e ->
  analyze generate_content (pre ++ [model_name]) = AnalysisFailed (Some e).
Proof.
  intros Hall Hcall. unfold analyze, run_loop.
  rewrite (for_models_skip _ _ _ _ Hall). cbn [Nat.add].
  destruct (run_loop_prefix _ Hall) as (fr & Hrun & Hfr).
  unfold run_loop in Hrun. rewrite Hrun. cbn [for_models].
  rewrite Hcall. cbn. now apply conclude_unusable.
Qed.

End RequesterFacts.

Section RequesterTheorems.
Import Requester.

Variable generate_content : nat -> pystr -> outcome pystr.

Lemma last_raised_app (pre rest : list pystr) :
  forall (i : nat) (earlier : option exn),
    last_raised generate_content (pre ++ rest) i earlier
    = last_raised generate_content rest (i + List.length pre)
        (last_raised generate_content pre i earlier).
Proof.
  induction pre as [| model_name pre IH]; intros i earlier; cbn.
  - now rewrite Nat.add_0_r.
  - rewrite Nat.add_succ_r.
    destruct (generate_content i model_name); apply IH.
Qed.

Lemma last_raised_none_raises (models : list pystr) :
  forall (i : nat) (earlier : option exn),
    (forall j model_name, nth_error models j = Some model_name ->
       exists text, generate_content (i + j) model_name = Ret text) ->
    last_raised generate_content models i earlier = earlier.
Proof.
  induction models as [| model_name rest IH]; intros i earlier Hret; cbn.
  - reflexivity.
  - destruct (Hret 0 model_name eq_refl) as [text Hhere].
    rewrite Nat.add_0_r in Hhere. rewrite Hhere.
    apply IH. intros j x Hx.
    specialize (Hret (S j) x Hx). now rewrite Nat.add_succ_r in Hret.
Qed.

Lemma all_unusable_app (pre rest : list pystr) (i : nat) :
  all_unusable generate_content pre i ->
  all_unusable generate_content rest (i + List.length pre) ->
  all_unusable generate_content (pre ++ rest) i.
Proof.
  intros Hpre Hrest j x Hx.
  destruct (Nat.lt_ge_cases j (List.length pre)) as [Hlt | Hge].
  - rewrite nth_error_app1 in Hx by exact Hlt. now apply Hpre.
  - rewrite nth_error_app2 in Hx by exact Hge.
    specialize (Hrest _ _ Hx).
    now replace (i + List.length pre + (j - List.length pre)) with (i + j)
      in Hrest by lia.
Qed.

(** C3: the loop returns the text of the first candidate whose call gives a
    text that is not empty, and calls no candidate after it; over candidates
    that all raise or give an empty text, the analysis fails with the error
    recorded last; when the candidates all raise, that is the error of the
    last candidate. *)
Theorem first_usable_candidate_wins :
  (forall pre model_name post text,
      all_unusable generate_content pre 0 ->
      generate_content (List.length pre) model_name = Ret text ->
      truthy text = true ->
      analyze generate_content (pre ++ model_name :: post) = Analysed text
      /\ calls (run_loop generate_content (pre ++ model_name :: post))
         = pre ++ [model_name])
  /\ (forall models,
        all_unusable generate_content models 0 ->
        analyze generate_content models
        = AnalysisFailed (last_raised generate_content models 0 None))
  /\ (forall pre model_name e,
        (forall j x, nth_error pre j = Some x ->
           exists e', generate_content j x = Raise e') ->
        generate_content (List.length pre) model_name = Raise e ->
        analyze generate_content (pre ++ [model_name])
        = AnalysisFailed (Some e)).
Proof.
  split; [| split].
  - intros pre model_name post text. apply analyze_first_usable.
  - intros models Hall. now apply analyze_exhausted.
  - intros pre model_name e Hraise Hlast.
    apply analyze_last_raises; [| exact Hlast].
    intros j x Hx. destruct (Hraise j x Hx) as [e' He'].
    cbn [Nat.add]. now rewrite He'.
Qed.

(** C10: a call that returns an empty text makes the loop go on to the next
    candidate with the recorded error as it was; when every candidate returns
    an empty text the analysis fails with no error recorded; after a
    candidate that raised, candidates that return an empty text leave its
    error as the one the failure carries. *)
Theorem empty_response_records_no_error :
  (forall model_name rest i st,
      generate_content i model_name = Ret [] ->
      for_models generate_content (model_name :: rest) i st
      = for_models generate_content rest (S i)
          (LoopState (Some []) (last_error st) (calls st ++ [model_name])))
  /\ (forall models,
        (forall j x, nth_error models j = Some x ->
           generate_content j x = Ret []) ->
        analyze generate_content models = AnalysisFailed None
        /\ calls (run_loop generate_content models) = models)
  /\ (forall pre model_name post e,
        all_unusable generate_content pre 0 ->
        generate_content (List.length pre) model_name = Raise e ->
        (forall j x, nth_error post j = Some x ->
           generate_content (S (List.length pre) + j) x = Ret []) ->
        analyze generate_content (pre ++ model_name :: post)
        = AnalysisFailed (Some e)).
Proof.
  split; [| split].
  - intros model_name rest i st Hcall. cbn [for_models]. now rewrite Hcall.
  - intros models Hempty.
    assert (Hall : all_unusable generate_content models 0).
    { intros j x Hx. cbn [Nat.add]. now rewrite (Hempty j x Hx). }
    destruct (analyze_exhausted _ _ Hall) as [-> ->].
    rewrite last_raised_none_raises; [auto |].
    intros j x Hx. exists []. now apply Hempty.
  - intros pre model_name post e Hpre Hcall Hpost.
    assert (Hall : all_unusable generate_content (pre ++ model_name :: post) 0).
    { apply all_unusable_app; [exact Hpre |].
      cbn [Nat.add]. intros [| j] x Hx.
      - injection Hx as <-. now rewrite Nat.add_0_r, Hcall.
      - cbn in Hx.
        replace (List.length pre + S j) with (S (List.length pre) + j) by lia.
        now rewrite (Hpost j x Hx). }
    destruct (analyze_exhausted _ _ Hall) as [-> _].
    rewrite last_raised_app. cbn [Nat.add last_raised]. rewrite Hcall.
    rewrite last_raised_none_raises; [reflexivity |].
    intros j x Hx. exists []. now apply Hpost.
Qed.

End RequesterTheorems.

(** The two candidates of the page, the first of which raises. *)
Lemma first_usable_candidate_wins_witness :
  Requester.analyze
    (fun i _ => match i with
                | O => Raise (Exception "ResourceExhausted" "quota")
                | S _ => Ret (u "[To-do List] bar")
                end)
    Requester.candidate_models
  = Requester.Analysed (u "[To-do List] bar").
Proof.
  refine (proj1 (proj1
    (first_usable_candidate_wins
       (fun i _ => match i with
                   | O => Raise (Exception "ResourceExhausted" "quota")
                   | S _ => Ret (u "[To-do List] bar")
                   end))
    [u "models/gemini-2.0-flash"] (u "models/gemini-flash-latest") []
    (u "[To-do List] bar") _ eq_refl eq_refl)).
  intros [| j] x Hx; [reflexivity | destruct j; discriminate].
Defined.

Lemma empty_response_records_no_error_witness :
  Requester.analyze (fun _ _ => Ret []) Requester.candidate_models
  = Requester.AnalysisFailed None.
Proof.
  refine (proj1 (proj1 (proj2
    (empty_response_records_no_error (fun _ _ => Ret [])))
    Requester.candidate_models _)).
  intros; reflexivity.
Defined.

(** ** The parser on the pattern of a label *)

Section ParserFacts.
Import Re Extractor.
Open Scope N_scope.

Lemma existsb_false_incl (f : N -> bool) (l l' : list N) :
  existsb f l = false -> incl l' l -> existsb f l' = false.
Proof.
  intros Hl Hincl.
  destruct (existsb f l') eqn:Hl'; [| reflexivity].
  apply existsb_exists in Hl' as (x & Hx & Hfx).
  rewrite <- Hl. symmetry. apply existsb_exists. exists x. auto.
Qed.

Lemma special_false (c : N) :
  special c = false ->
  (c =? 46) = false /\ (c =? 92) = false /\ (c =? 40) = false
  /\ (c =? 41) = false /\ (c =? 42) = false /\ (c =? 36) = false
  /\ (c =? 124) = false /\ repeat_char c = false.
Proof.
  intros H.
  assert (Hone : forall x, In x (u ".\[{()*+?^$|") -> (c =? x) = false).
  { intros x Hx.
    pose proof (existsb_false_incl (N.eqb c) _ [x] H) as Hx'.
    cbn [existsb] in Hx'. rewrite Bool.orb_false_r in Hx'. apply Hx'.
    intros y [<- | []]. exact Hx. }
  repeat split; try (apply Hone; vm_compute; tauto).
  apply (existsb_false_incl _ _ _ H).
  intros x Hx. vm_compute in Hx. vm_compute. tauto.
Qed.

Lemma repeated_plain (cs : cset) (inp : list N) (ng : nat) :
  no_repeat_ahead inp ->
  repeated cs inp ng = POk (Chr cs, inp, ng).
Proof.
  destruct inp as [| c rest]; [reflexivity |].
  intros [H42 Hrep]. unfold repeated. rewrite H42.
  unfold unrepeated, starts_repeat. now rewrite Hrep.
Qed.

Lemma parse_seq_S (f : nat) (inp : list N) (ng : nat) :
  parse_seq (S f) inp ng
  = if ends_sequence inp then POk (Empty, inp, ng)
    else
      match parse_item f inp ng with
      | POk (r1, rest, ng1) =>
          match parse_seq f rest ng1 with
          | POk (r2, rest2, ng2) => POk (Seq r1 r2, rest2, ng2)
          | other => other
          end
      | other => other
      end.
Proof. reflexivity. Qed.

Lemma parse_item_literal (f : nat) (c : N) (rest : list N) (ng : nat) :
  special c = false ->
  no_repeat_ahead rest ->
  parse_item (S f) (c :: rest) ng = POk (Chr (CLit c), rest, ng).
Proof.
  intros Hc Hrest.
  destruct (special_false _ Hc)
    as (H46 & H92 & H40 & H41 & H42 & H36 & H124 & Hrep).
  cbn [parse_item]. rewrite H92, H46, H36, H40, Hc.
  now apply repeated_plain.
Qed.

Lemma parse_seq_literals (label tail : pystr) :
  Forall (fun c => special c = false) label ->
  no_repeat_ahead tail ->
  forall (fuel ng : nat),
    parse_seq (S (fuel + List.length label)) (label ++ tail) ng
    = match parse_seq (S fuel) tail ng with
      | POk (r, rest, ng') => POk (literals label r, rest, ng')
      | other => other
      end.
Proof.
  intros Hlit Htail.
  induction Hlit as [| c label Hc Hlabel IH]; intros fuel ng.
  - cbn [List.length app literals fold_right]. rewrite Nat.add_0_r.
    now destruct (parse_seq (S fuel) tail ng) as [[[r rest] ng'] | |].
  - assert (Hnext : no_repeat_ahead (label ++ tail)).
    { destruct Hlabel as [| d label Hd _]; [exact Htail |].
      destruct (special_false _ Hd) as (_ & _ & _ & _ & ? & _ & _ & ?).
      cbn. auto. }
    cbn [List.length app]. rewrite Nat.add_succ_r.
    rewrite (parse_seq_S (S (fuel + List.length label))).
    destruct (special_false _ Hc) as (_ & _ & _ & H41 & _ & _ & H124 & _).
    cbn [ends_sequence]. rewrite H124, H41. cbn [orb].
    rewrite (parse_item_literal _ _ _ _ Hc Hnext), IH.
    now destruct (parse_seq (S fuel) tail ng) as [[[r rest] ng'] | |].
Qed.

Lemma parse_seq_tail (fuel : nat) :
  parse_seq (S (52 + fuel)) (u "\](.*?)(?=\[|$)") 0
  = POk (tail_regex, [], 1%nat).
Proof. reflexivity. Qed.

Lemma parse_alt_S (f : nat) (inp : list N) (ng : nat) :
  parse_alt (S f) inp ng
  = match parse_seq f inp ng with
    | POk (r1, c :: rest, ng1) =>
        if c =? 124 then
          match parse_alt f rest ng1 with
          | POk (r2, rest2, ng2) => POk (Alt r1 r2, rest2, ng2)
          | other => other
          end
        else POk (r1, c :: rest, ng1)
    | other => other
    end.
Proof. reflexivity. Qed.

Lemma parse_item_bracket (f : nat) (rest : list N) (ng : nat) :
  parse_item (S f) (92 :: 91 :: rest) ng = repeated (CLit 91) rest ng.
Proof. reflexivity. Qed.

Lemma pattern_length (label : pystr) :
  (3 * List.length (pattern_of label) + 4
   = S (S (S (52 + 2 * List.length label + List.length label))))%nat.
Proof.
  unfold pattern_of. rewrite !length_app.
  change (List.length (u "\[")) with 2%nat.
  change (List.length (u "\](.*?)(?=\[|$)")) with 15%nat. lia.
Qed.

(** The pattern of a label without special characters compiles to
    [label_regex], with its one group. *)
Lemma compile_literal_label (label : pystr) :
  literal_label label ->
  compile (pattern_of label) = POk (label_regex label, 1%nat).
Proof.
  intros Hlit.
  assert (Hall : Forall (fun c => special c = false) label).
  { apply Forall_forall. exact Hlit. }
  assert (Htail : no_repeat_ahead (u "\](.*?)(?=\[|$)"))
    by (split; reflexivity).
  assert (Hnext : no_repeat_ahead (label ++ u "\](.*?)(?=\[|$)")).
  { destruct Hall as [| d l Hd _]; [exact Htail |].
    destruct (special_false _ Hd) as (_ & _ & _ & _ & ? & _ & _ & ?).
    split; assumption. }
  unfold compile. rewrite pattern_length.
  rewrite parse_alt_S, parse_seq_S.
  replace (ends_sequence (pattern_of label)) with false by reflexivity.
  replace (pattern_of label)
    with (92 :: 91 :: label ++ u "\](.*?)(?=\[|$)") by reflexivity.
  rewrite parse_item_bracket, (repeated_plain _ _ _ Hnext).
  rewrite (parse_seq_literals _ _ Hall Htail), parse_seq_tail.
  reflexivity.
Qed.

End ParserFacts.

(** ** Occurrences and trimming *)

Section TextFacts.
Import Text Extractor.
Open Scope N_scope.

Lemma starts_with_app (p : pystr) :
  forall post, starts_with p (p ++ post) = true.
Proof.
  induction p as [| a p IH]; intros post; cbn; [reflexivity |].
  now rewrite N.eqb_refl, IH.
Qed.

Lemma starts_with_split (p : pystr) :
  forall s, starts_with p s = true ->
            s = p ++ List.skipn (List.length p) s.
Proof.
  induction p as [| a p IH]; intros s Hs; [reflexivity |].
  destruct s as [| b s]; [discriminate |]. cbn in Hs |- *.
  apply andb_prop in Hs as [Hab Hrest].
  apply N.eqb_eq in Hab as <-. now rewrite <- IH.
Qed.

(** [after_first] finds an occurrence, and the first one. *)
Lemma after_first_sound (p : pystr) :
  forall s body,
    after_first p s = Some body ->
    exists pre,
      s = pre ++ p ++ body
      /\ forall pre' post', s = pre' ++ p ++ post' ->
                            (List.length pre <= List.length pre')%nat.
Proof.
  induction s as [| x s IH]; intros body; cbn [after_first].
  - destruct (starts_with p []) eqn:Hp; [| discriminate].
    intros [= <-]. exists []. split; [now apply starts_with_split |].
    intros; cbn; lia.
  - destruct (starts_with p (x :: s)) eqn:Hp.
    + intros [= <-]. exists []. split; [now apply starts_with_split |].
      intros; cbn; lia.
    + intros Hbody. destruct (IH _ Hbody) as (pre & -> & Hmin).
      exists (x :: pre). split; [reflexivity |].
      intros [| y pre'] post' Heq.
      * cbn in Heq. rewrite Heq, starts_with_app in Hp. discriminate.
      * injection Heq as _ Heq. specialize (Hmin _ _ Heq). cbn. lia.
Qed.

Lemma after_first_complete (p : pystr) :
  forall pre post, exists body, after_first p (pre ++ p ++ post) = Some body.
Proof.
  induction pre as [| x pre IH]; intros post.
  - cbn [app]. exists (List.skipn (List.length p) (p ++ post)).
    destruct (p ++ post) eqn:Heq; cbn [after_first];
      now rewrite <- Heq, starts_with_app.
  - cbn [app after_first].
    destruct (starts_with p (x :: pre ++ p ++ post)); eauto.
Qed.

(** The body after the first occurrence, from the occurrence itself. *)
Lemma after_first_occurrence (p text pre post : pystr) :
  text = pre ++ p ++ post ->
  (forall pre' post', text = pre' ++ p ++ post' ->
                      (List.length pre <= List.length pre')%nat) ->
  after_first p text = Some post.
Proof.
  intros Htext Hmin.
  destruct (after_first_complete p pre post) as [body Hbody].
  rewrite <- Htext in Hbody. rewrite Hbody. f_equal.
  destruct (after_first_sound _ _ _ Hbody) as (pre0 & Htext0 & Hmin0).
  pose proof (Hmin _ _ Htext0) as Hle.
  pose proof (Hmin0 _ _ Htext) as Hge.
  rewrite Htext in Htext0.
  apply app_eq_app in Htext0 as (l & [[Hpre Hrest] | [Hpre Hrest]]).
  - assert (l = []) as ->.
    { apply length_zero_iff_nil. rewrite Hpre, length_app in Hle. lia. }
    cbn in Hrest. now apply app_inv_head in Hrest.
  - assert (l = []) as ->.
    { apply length_zero_iff_nil. rewrite Hpre, length_app in Hge. lia. }
    cbn in Hrest. now apply app_inv_head in Hrest.
Qed.

Lemma after_first_absent (p text : pystr) :
  (forall pre post, text <> pre ++ p ++ post) ->
  after_first p text = None.
Proof.
  intros Habsent. destruct (after_first p text) as [body |] eqn:Hbody;
    [| reflexivity].
  destruct (after_first_sound _ _ _ Hbody) as (pre & Htext & _).
  now destruct (Habsent _ _ Htext).
Qed.

Lemma occurs_true (p s : pystr) :
  occurs p s = true -> exists pre post, s = pre ++ p ++ post.
Proof.
  unfold occurs. destruct (after_first p s) as [body |] eqn:Hbody;
    [| discriminate].
  intros _. destruct (after_first_sound _ _ _ Hbody) as (pre & Hs & _).
  eauto.
Qed.

(** Trimming. *)
Lemma lstrip_newline (s : pystr) :
  lstrip (s ++ [10])
  = match lstrip s with
    | [] => []
    | c :: rest => (c :: rest) ++ [10]
    end.
Proof.
  induction s as [| c s IH]; [reflexivity |].
  cbn [app lstrip]. destruct (isspace c); [exact IH | reflexivity].
Qed.

Lemma rstrip_newline (s : pystr) : rstrip (s ++ [10]) = rstrip s.
Proof. unfold rstrip. now rewrite rev_app_distr. Qed.

Lemma strip_newline (s : pystr) : strip (s ++ [10]) = strip s.
Proof.
  unfold strip. rewrite lstrip_newline.
  destruct (lstrip s) as [| c rest]; [reflexivity |].
  apply rstrip_newline.
Qed.

Lemma in_lstrip (c : N) (s : pystr) : In c (lstrip s) -> In c s.
Proof.
  induction s as [| x s IH]; [auto |].
  cbn [lstrip]. destruct (isspace x); [right; auto | auto].
Qed.

Lemma in_strip (c : N) (s : pystr) : In c (strip s) -> In c s.
Proof.
  unfold strip, rstrip. intros Hin.
  apply in_lstrip. apply in_rev in Hin. apply in_lstrip in Hin.
  now apply in_rev in Hin.
Qed.

Lemma until_bracket_no_bracket (s : pystr) : ~ In 91 (until_bracket s).
Proof.
  induction s as [| c s IH]; [auto |].
  cbn [until_bracket]. destruct (c =? 91) eqn:Hc; [auto |].
  apply N.eqb_neq in Hc. intros [Heq | Hin]; auto.
Qed.

(** What [(.*?)] takes is the text up to the next bracket, short of the
    newline that ends the text, if one does. *)
Lemma lazy_body_until_bracket (s : pystr) :
  until_bracket s = lazy_body s \/ until_bracket s = lazy_body s ++ [10].
Proof.
  induction s as [| c s IH]; [left; reflexivity |].
  cbn [until_bracket lazy_body lookahead_holds].
  destruct (c =? 91) eqn:Hbracket; cbn [orb]; [left; reflexivity |].
  destruct (c =? 10) eqn:Hnl; cbn [andb].
  - destruct s as [| d s].
    + right. apply N.eqb_eq in Hnl as ->. reflexivity.
    + destruct IH as [-> | ->]; auto.
  - destruct IH as [-> | ->]; auto.
Qed.

Lemma strip_lazy_body (s : pystr) :
  strip (lazy_body s) = strip (until_bracket s).
Proof.
  destruct (lazy_body_until_bracket s) as [-> | ->];
    [reflexivity | now rewrite strip_newline].
Qed.

Lemma lazy_body_prefix (s : pystr) :
  List.firstn (List.length (lazy_body s)) s = lazy_body s.
Proof.
  induction s as [| c s IH]; [reflexivity |].
  cbn [lazy_body]. destruct (lookahead_holds (c :: s)); [reflexivity |].
  cbn. now rewrite IH.
Qed.

End TextFacts.

(** ** The notification message *)

Section MessageFacts.
Import Text Slack.
Open Scope N_scope.

Lemma truthy_get_item (d : pydict) (key : string) :
  truthy_get d key = Requester.truthy (dict_item d key).
Proof.
  unfold truthy_get, dict_item. now destruct (dict_get d key).
Qed.

(** The message of the code is the message of the specification. *)
Lemma build_message_assembled (now attendants context : pystr)
    (summary_data : pydict) :
  build_message now attendants context summary_data
  = assembled (Inputs now attendants context summary_data).
Proof.
  unfold build_message, assembled, render_present.
  rewrite !truthy_get_item.
  cbn [List.filter present field in_now in_attendants in_context in_summary].
  destruct (Requester.truthy attendants), (Requester.truthy context),
    (Requester.truthy (dict_item summary_data "three_line")),
    (Requester.truthy (dict_item summary_data "todo")),
    (Requester.truthy (dict_item summary_data "detailed"));
    cbn [List.map List.concat]; unfold render;
    cbn [heading closing field in_now in_attendants in_context in_summary];
    rewrite ?app_nil_r, <- ?app_assoc; reflexivity.
Qed.

(** The sign of a part is in its heading, in no other heading and in no
    closing. *)
Lemma sign_in_heading (p : part) : In (sign p) (heading p).
Proof. destruct p; cbn; auto 10. Qed.

Lemma sign_only_in_own_heading (p q : part) :
  In (sign p) (heading q ++ closing q) -> p = q.
Proof.
  intros Hin.
  assert (Hb : existsb (N.eqb (sign p)) (heading q ++ closing q) = true).
  { apply existsb_exists. exists (sign p). split; [exact Hin |].
    apply N.eqb_refl. }
  destruct p, q; try reflexivity; vm_compute in Hb; discriminate.
Qed.

Lemma in_render_present (i : inputs) (c : N) (ps : list part) :
  In c (render_present i ps) ->
  exists q, present i q = true
            /\ (In c (heading q ++ closing q) \/ In c (field i q)).
Proof.
  unfold render_present. intros Hin.
  apply in_concat in Hin as (piece & Hpiece & Hc).
  apply in_map_iff in Hpiece as (q & <- & Hq).
  apply filter_In in Hq as [_ Hpresent].
  exists q. split; [exact Hpresent |].
  unfold render in Hc. rewrite !in_app_iff in *. tauto.
Qed.

Lemma in_assembled (i : inputs) (c : N) :
  In c (assembled i) ->
  c = 10
  \/ exists q, present i q = true
               /\ (In c (heading q ++ closing q) \/ In c (field i q)).
Proof.
  unfold assembled. rewrite !in_app_iff. cbn [In].
  intros [H | [[H | []] | H]]; eauto using in_render_present.
Qed.

(** A part that is not there leaves no sign in the message, unless a field
    brings the sign along. *)
Lemma absent_part_leaves_no_sign (i : inputs) (p : part) :
  present i p = false ->
  (forall q, ~ In (sign p) (field i q)) ->
  ~ In (sign p) (assembled i).
Proof.
  intros Habsent Hfields Hin.
  apply in_assembled in Hin as [Hnl | (q & Hq & [Hhead | Hfield])].
  - destruct p; discriminate.
  - apply sign_only_in_own_heading in Hhead as <-. congruence.
  - exact (Hfields q Hfield).
Qed.

(** C5: the message is made of the parts whose field is not empty, in the
    order header, attendees, context, brief summary, action items, detailed
    summary; the heading of a part whose field is empty does not occur in
    the message, the one of the detailed summary with [detailed = ""] among
    them (a heading that comes with the text of a field set aside: the
    fields are free of the sign of the heading). *)
Theorem message_parts_in_order (now attendants context : pystr)
    (summary_data : pydict) :
  build_message now attendants context summary_data
  = render_present (Inputs now attendants context summary_data)
      [Header; Attendees; Context]
    ++ [10]
    ++ render_present (Inputs now attendants context summary_data)
         [Brief; ActionItems; Detailed]
  /\ (forall p,
        present (Inputs now attendants context summary_data) p = false ->
        (forall q, ~ In (sign p)
                     (field (Inputs now attendants context summary_data) q)) ->
        occurs (heading p)
               (build_message now attendants context summary_data) = false)
  /\ (dict_get summary_data "detailed" = Some [] ->
      (forall q, ~ In (sign Detailed)
                   (field (Inputs now attendants context summary_data) q)) ->
      occurs detailed_heading
             (build_message now attendants context summary_data) = false).
Proof.
  assert (Hno : forall p,
    present (Inputs now attendants context summary_data) p = false ->
    (forall q, ~ In (sign p)
                 (field (Inputs now attendants context summary_data) q)) ->
    occurs (heading p)
           (build_message now attendants context summary_data) = false).
  { intros p Habsent Hfields.
    destruct (occurs (heading p) _) eqn:Hoccurs; [| reflexivity].
    apply occurs_true in Hoccurs as (pre & post & Heq).
    destruct (absent_part_leaves_no_sign _ _ Habsent Hfields).
    rewrite <- build_message_assembled, Heq, !in_app_iff.
    right; left. apply sign_in_heading. }
  split; [apply build_message_assembled | split; [exact Hno |]].
  intros Hdetailed. apply (Hno Detailed).
  cbn. unfold dict_item. now rewrite Hdetailed.
Qed.

End MessageFacts.


(** A message without a detailed summary. *)
Lemma message_parts_in_order_witness :
  Text.occurs Slack.detailed_heading
    (Slack.build_message (u "2024-05-01 10:00") (u "Kim, Lee") []
       [("three_line"%string, u "a"); ("todo"%string, u "b");
        ("detailed"%string, [])])
  = false.
Proof.
  refine (proj2 (proj2
    (message_parts_in_order (u "2024-05-01 10:00") (u "Kim, Lee") []
       [("three_line"%string, u "a"); ("todo"%string, u "b");
        ("detailed"%string, [])])) eq_refl _).
  intros q Hin. destruct q; vm_compute in Hin;
    repeat (destruct Hin as [Hin | Hin]; [discriminate Hin |]); exact Hin.
Defined.


(** ** The matcher on the pattern of a label *)

Section MatcherFacts.
Import Re Text Extractor.
Open Scope N_scope.

(** The continuation that ends a match. *)
Local Abbreviation accept :=
  (fun (_ : list N) (_ : nat) (c : captures) => Some c).

Lemma matches_literals (label : pystr) (r : regex) :
  forall rest pos c k,
    matches (literals label r) rest pos c k
    = if starts_with label rest
      then matches r (List.skipn (List.length label) rest)
                   (pos + List.length label) c k
      else None.
Proof.
  induction label as [| a label IH]; intros rest pos c k.
  - cbn. now rewrite Nat.add_0_r.
  - cbn [literals fold_right matches starts_with List.length].
    destruct rest as [| x rest]; [reflexivity |].
    cbn [cset_mem List.skipn]. rewrite (N.eqb_sym x a).
    destruct (a =? x); cbn [andb]; [| reflexivity].
    fold (literals label r). rewrite IH, Nat.add_succ_r. reflexivity.
Qed.

(** The lookahead [(?=\[|$)]. *)
Lemma matches_lookahead (rest : list N) (pos : nat) (c : captures) :
  matches (Look (Alt (Seq (Chr (CLit 91)) Empty) (Seq Eos Empty)))
          rest pos c accept
  = if lookahead_holds rest then Some c else None.
Proof.
  destruct rest as [| x [| y rest]];
    cbn [matches cset_mem lookahead_holds]; [reflexivity | |].
  - destruct (x =? 91); [reflexivity |]. now destruct (x =? 10).
  - destruct (x =? 91); cbn [orb]; [reflexivity |].
    now rewrite Bool.andb_false_r.
Qed.

(** [.*?] before a continuation that holds exactly where the lookahead
    does. *)
Lemma star_lazy_lookahead (start : nat) (k : cont) :
  (forall rest pos c,
      k rest pos c
      = if lookahead_holds rest then Some ((1%nat, (start, pos)) :: c)
        else None) ->
  forall body pos c,
    star_lazy CAny body pos c k
    = Some ((1%nat, (start, (pos + List.length (lazy_body body))%nat)) :: c).
Proof.
  intros Hk. induction body as [| x body IH]; intros pos c.
  - cbn [star_lazy]. rewrite Hk. cbn. now rewrite Nat.add_0_r.
  - cbn [star_lazy lazy_body]. rewrite Hk.
    destruct (lookahead_holds (x :: body)).
    + cbn. now rewrite Nat.add_0_r.
    + cbn [cset_mem List.length]. now rewrite IH, Nat.add_succ_r.
Qed.

Lemma matches_tail (rest : list N) (pos : nat) :
  matches tail_regex rest pos [] accept
  = match rest with
    | x :: body =>
        if x =? 93
        then Some [(1%nat, (S pos, (S pos + List.length (lazy_body body))%nat))]
        else None
    | [] => None
    end.
Proof.
  destruct rest as [| x body]; [reflexivity |].
  cbn [tail_regex matches cset_mem].
  destruct (x =? 93); [| reflexivity].
  apply star_lazy_lookahead. intros rest' pos' c'.
  exact (matches_lookahead rest' pos' ((1%nat, (S pos, pos')) :: c')).
Qed.

End MatcherFacts.

Section SearchFacts.
Import Re Text Extractor.
Open Scope N_scope.

Local Abbreviation accept :=
  (fun (_ : list N) (_ : nat) (c : captures) => Some c).

Lemma starts_with_app_split (p q : pystr) :
  forall s, starts_with (p ++ q) s
            = starts_with p s && starts_with q (List.skipn (List.length p) s).
Proof.
  induction p as [| a p IH]; intros s; [reflexivity |].
  destruct s as [| b s]; cbn [app starts_with List.length List.skipn].
  - reflexivity.
  - now rewrite IH, Bool.andb_assoc.
Qed.

Lemma starts_with_length (p : pystr) :
  forall s, starts_with p s = true -> (List.length p <= List.length s)%nat.
Proof.
  induction p as [| a p IH]; intros s Hs; cbn; [lia |].
  destruct s as [| b s]; [discriminate |].
  cbn in Hs |- *. apply andb_prop in Hs as [_ Hs].
  specialize (IH _ Hs). lia.
Qed.

Lemma bracketed_length (label : pystr) :
  List.length (bracketed label) = S (S (List.length label)).
Proof. unfold bracketed. cbn. rewrite length_app. cbn. lia. Qed.

Lemma matches_label (label rest : pystr) (pos : nat) :
  matches (label_regex label) rest pos [] accept
  = if starts_with (bracketed label) rest
    then Some [(1%nat, body_span label rest pos)]
    else None.
Proof.
  unfold body_span. rewrite bracketed_length.
  unfold label_regex, bracketed.
  destruct rest as [| x rest]; [reflexivity |].
  change (List.skipn (S (S (List.length label))) (x :: rest))
    with (List.skipn (S (List.length label)) rest).
  replace (List.skipn (S (List.length label)) rest)
    with (List.skipn 1 (List.skipn (List.length label) rest))
    by (now rewrite skipn_skipn).
  cbn [matches cset_mem app starts_with].
  rewrite (N.eqb_sym x 91). destruct (91 =? x); cbn [andb]; [| reflexivity].
  rewrite matches_literals, starts_with_app_split.
  destruct (starts_with label rest); cbn [andb]; [| reflexivity].
  rewrite matches_tail.
  destruct (List.skipn (List.length label) rest) as [| y body];
    [reflexivity |].
  cbn [starts_with List.skipn]. rewrite (N.eqb_sym y 93), Bool.andb_true_r.
  destruct (93 =? y); [| reflexivity].
  do 3 f_equal. f_equal; lia.
Qed.

End SearchFacts.

Section ExtractFacts.
Import Re Text Extractor.
Open Scope N_scope.

Lemma after_first_length (p : pystr) (s body : pystr) :
  after_first p s = Some body ->
  (List.length body <= List.length s)%nat
  /\ List.skipn (List.length s - List.length body) s = body.
Proof.
  intros Hbody.
  destruct (after_first_sound _ _ _ Hbody) as (pre & -> & _).
  rewrite app_assoc, length_app. split; [lia |].
  replace (List.length (pre ++ p) + List.length body - List.length body)%nat
    with (List.length (pre ++ p)) by lia.
  now rewrite skipn_app, skipn_all, Nat.sub_diag.
Qed.

(** [re.search] with the pattern of a label finds the first bracketed label,
    with group 1 spanning what [(.*?)] takes after it. *)
Lemma search_from_label (label : pystr) :
  forall rest pos,
    search_from (label_regex label) rest pos
    = match after_first (bracketed label) rest with
      | Some body =>
          Some [(1%nat,
                 ((pos + (List.length rest - List.length body))%nat,
                  (pos + (List.length rest - List.length body)
                   + List.length (lazy_body body))%nat))]
      | None => None
      end.
Proof.
  assert (Hhere : forall rest pos,
    starts_with (bracketed label) rest = true ->
    Some [(1%nat, body_span label rest pos)]
    = Some [(1%nat,
         ((pos + (List.length rest
                  - List.length
                      (List.skipn (List.length (bracketed label)) rest)))%nat,
          (pos + (List.length rest
                  - List.length
                      (List.skipn (List.length (bracketed label)) rest))
           + List.length
               (lazy_body
                  (List.skipn (List.length (bracketed label)) rest)))%nat))]).
  { intros rest pos Hstarts. apply starts_with_length in Hstarts.
    unfold body_span. rewrite length_skipn.
    replace (List.length rest
             - (List.length rest - List.length (bracketed label)))%nat
      with (List.length (bracketed label)) by lia.
    reflexivity. }
  induction rest as [| x rest IH]; intros pos;
    cbn [search_from after_first]; rewrite matches_label.
  - destruct (starts_with (bracketed label) []) eqn:Hstarts;
      [now apply Hhere | reflexivity].
  - destruct (starts_with (bracketed label) (x :: rest)) eqn:Hstarts;
      [now apply Hhere |].
    rewrite IH.
    destruct (after_first (bracketed label) rest) as [body |] eqn:Hbody;
      [| reflexivity].
    apply after_first_length in Hbody as [Hle _].
    cbn [List.length]. do 3 f_equal. f_equal; lia.
Qed.

(** On a label without special characters, [extract_section] is the section
    of the specification. *)
Lemma extract_section_literal (text label : pystr) :
  literal_label label ->
  extract_section text label = Some (Ret (section_between text label)).
Proof.
  intros Hlit. unfold extract_section, section_between, search.
  rewrite (compile_literal_label _ Hlit), search_from_label.
  destruct (after_first (bracketed label) text) as [body |] eqn:Hbody;
    [| reflexivity].
  apply after_first_length in Hbody as [Hle Hskip].
  unfold group1_strip, slice. cbn [Nat.ltb Nat.leb span Nat.eqb Nat.add].
  rewrite Hskip.
  replace (List.length text - List.length body
           + List.length (lazy_body body)
           - (List.length text - List.length body))%nat
    with (List.length (lazy_body body)) by lia.
  now rewrite lazy_body_prefix, strip_lazy_body.
Qed.

Lemma section_between_no_bracket (text label : pystr) :
  ~ In 91 (section_between text label).
Proof.
  unfold section_between.
  destruct (after_first (bracketed label) text) as [body |]; [| auto].
  intros Hin. apply in_strip in Hin.
  exact (until_bracket_no_bracket _ Hin).
Qed.

(** The three labels of the page have no special character. *)
Lemma page_labels_literal :
  literal_label three_line_label /\ literal_label todo_label
  /\ literal_label detailed_label.
Proof.
  repeat split; intros c Hc; vm_compute in Hc;
    repeat (destruct Hc as [<- | Hc]; [reflexivity |]); destruct Hc.
Qed.

End ExtractFacts.

(** ** Section extraction *)

Section ExtractTheorems.
Import Text Extractor.
Open Scope N_scope.

(** The section labels have no character that is special in a pattern. *)
Lemma section_names_literal (label : pystr) :
  In label section_names -> literal_label label.
Proof.
  destruct page_labels_literal as (H3 & Htodo & Hdetailed).
  intros [<- | [<- | [<- | []]]]; assumption.
Qed.

(** C4: for every text and each of the three section labels,
    [extract_section] returns the text between the first ["[label]"] and the
    next ["["] or the end of the text (line breaks included), trimmed, and
    the empty string, without an error, when ["[label]"] does not occur. *)
Theorem extract_section_between_brackets (text label : pystr) :
  In label section_names ->
  (forall pre post,
      text = pre ++ bracketed label ++ post ->
      (forall pre' post', text = pre' ++ bracketed label ++ post' ->
                          (List.length pre <= List.length pre')%nat) ->
      extract_section text label = Some (Ret (strip (until_bracket post))))
  /\ ((forall pre post, text <> pre ++ bracketed label ++ post) ->
      extract_section text label = Some (Ret [])).
Proof.
  intros Hlabel.
  rewrite (extract_section_literal _ _ (section_names_literal _ Hlabel)).
  unfold section_between. split.
  - intros pre post Htext Hfirst.
    now rewrite (after_first_occurrence _ _ _ _ Htext Hfirst).
  - intros Habsent. now rewrite (after_first_absent _ _ Habsent).
Qed.

(** C8: for every text and each of the three section labels,
    [extract_section] returns a string, and no ['['] is in it. *)
Theorem extract_section_no_bracket (text label : pystr) :
  In label section_names ->
  exists s, extract_section text label = Some (Ret s) /\ ~ In 91 s.
Proof.
  intros Hlabel. exists (section_between text label).
  split; [apply extract_section_literal, section_names_literal, Hlabel |].
  apply section_between_no_bracket.
Qed.

(** Outside the section labels the label is read as a pattern, since line
    193 puts it into the pattern as it is: a dot stands for any character,
    an open parenthesis alone does not compile, and a group of the label
    becomes group 1.  The page passes no such label. *)
Example label_is_read_as_pattern :
  extract_section (u "[a]x") (u ".") = Some (Ret (u "x"))
  /\ extract_section (u "[a]x") (u "(") = Some (Raise Re.missing_paren)
  /\ extract_section (u "[ab]x") (u "(a)b") = Some (Ret (u "a")).
Proof. repeat split; reflexivity. Qed.

End ExtractTheorems.

(** The response of the specification, and its first section. *)
Lemma extract_section_between_brackets_witness :
  Extractor.extract_section
    (u "[3-Line Summary]" ++ [10%N] ++ u "foo" ++ [10%N] ++ u "[To-do List]"
       ++ [10%N] ++ u "bar" ++ [10%N] ++ u "[Detailed Summary]" ++ [10%N]
       ++ u "baz")
    Extractor.three_line_label
  = Some (Ret (u "foo")).
Proof.
  refine (proj1
    (extract_section_between_brackets _ Extractor.three_line_label
       (or_introl eq_refl))
    []
    ([10%N] ++ u "foo" ++ [10%N] ++ u "[To-do List]"
       ++ [10%N] ++ u "bar" ++ [10%N] ++ u "[Detailed Summary]" ++ [10%N]
       ++ u "baz")
    eq_refl _).
  intros pre' post' _. apply Nat.le_0_l.
Defined.

Lemma extract_section_no_bracket_witness :
  exists s,
    Extractor.extract_section (u "[To-do List] a [x] b") Extractor.todo_label
    = Some (Ret s)
    /\ ~ In 91%N s.
Proof.
  exact (extract_section_no_bracket (u "[To-do List] a [x] b")
           Extractor.todo_label (or_intror (or_introl eq_refl))).
Defined.

(** The scenario of the specification: the first candidate raises, the
    second answers with the three sections. *)
Example fallback_then_three_sections :
  let response :=
    u "[3-Line Summary]" ++ [10%N] ++ u "foo" ++ [10%N] ++ u "[To-do List]"
      ++ [10%N] ++ u "bar" ++ [10%N] ++ u "[Detailed Summary]" ++ [10%N]
      ++ u "baz" in
  let generate_content := fun (i : nat) (_ : pystr) =>
    match i with
    | O => Raise (Exception "ResourceExhausted" "quota")
    | S _ => Ret response
    end in
  Requester.analyze generate_content Requester.candidate_models
  = Requester.Analysed response
  /\ Extractor.extract_section response Extractor.three_line_label
     = Some (Ret (u "foo"))
  /\ Extractor.extract_section response Extractor.todo_label
     = Some (Ret (u "bar"))
  /\ Extractor.extract_section response Extractor.detailed_label
     = Some (Ret (u "baz")).
Proof. repeat split; reflexivity. Qed.

(** * Further properties *)

(** ** Volume check: what the three kinds of result mean *)

Section VolumeResults.
Import Volume.
Open Scope Z_scope.

Lemma frombuffer_int16_parity (frames : list Byte.byte) :
  (Nat.odd (List.length frames) = true ->
   exists e, frombuffer_int16 frames = Raise e)
  /\ (Nat.odd (List.length frames) = false ->
      exists audio_data,
        frombuffer_int16 frames = Ret audio_data
        /\ List.length frames = (2 * List.length audio_data)%nat).
Proof.
  assert (Hboth : forall n frames,
    (List.length frames <= n)%nat ->
    (Nat.odd (List.length frames) = true ->
     exists e, frombuffer_int16 frames = Raise e)
    /\ (Nat.odd (List.length frames) = false ->
        exists audio_data,
          frombuffer_int16 frames = Ret audio_data
          /\ List.length frames = (2 * List.length audio_data)%nat)).
  { induction n as [| n IH]; intros l Hlen.
    - destruct l; [| cbn in Hlen; lia].
      split; [discriminate | intros _; exists []; auto].
    - destruct l as [| lo [| hi rest]].
      + split; [discriminate | intros _; exists []; auto].
      + split; [intros _; cbn; eauto | discriminate].
      + destruct (IH rest) as [Hodd Heven]; [cbn in Hlen; lia |].
        change (Nat.odd (List.length (lo :: hi :: rest)))
          with (Nat.odd (List.length rest)).
        cbn [frombuffer_int16]. split.
        * intros H. destruct (Hodd H) as [e ->]. eauto.
        * intros H. destruct (Heven H) as (audio_data & -> & Hl).
          eexists; split; [reflexivity |]. cbn. lia. }
  exact (Hboth (List.length frames) frames (Nat.le_refl _)).
Qed.

(** X1: [check_audio_volume] returns the int -1 exactly when the bytes do
    not read as a waveform or the frames have an odd number of bytes, and
    the int 0 exactly when there are no frames; every other result is a
    float. *)
Theorem check_audio_volume_sentinels
    (wave_readframes : list Byte.byte -> outcome (list Byte.byte))
    (audio_bytes : list Byte.byte) :
  (check_audio_volume wave_readframes audio_bytes = Ret (PyInt (-1))
   <-> (exists e, wave_readframes audio_bytes = Raise e)
       \/ (exists frames, wave_readframes audio_bytes = Ret frames
                          /\ Nat.odd (List.length frames) = true))
  /\ (check_audio_volume wave_readframes audio_bytes = Ret (PyInt 0)
      <-> wave_readframes audio_bytes = Ret [])
  /\ (forall z, check_audio_volume wave_readframes audio_bytes = Ret (PyInt z)
                -> z = -1 \/ z = 0).
Proof.
  assert (Hcases :
    match wave_readframes audio_bytes with
    | Raise _ =>
        check_audio_volume wave_readframes audio_bytes = Ret (PyInt (-1))
    | Ret [] => check_audio_volume wave_readframes audio_bytes = Ret (PyInt 0)
    | Ret (b :: frames) =>
        if Nat.odd (List.length (b :: frames))
        then check_audio_volume wave_readframes audio_bytes
             = Ret (PyInt (-1))
        else exists f, check_audio_volume wave_readframes audio_bytes
                       = Ret (PyFloat f)
    end).
  { unfold check_audio_volume, check_audio_volume_body, try_except, bind.
    destruct (wave_readframes audio_bytes) as [[| b frames] | e];
      [reflexivity | | reflexivity].
    replace (List.length (b :: frames) =? 0)%nat with false by reflexivity.
    destruct (frombuffer_int16_parity (b :: frames)) as [Hodd Heven].
    destruct (Nat.odd (List.length (b :: frames))).
    - now destruct (Hodd eq_refl) as [e ->].
    - destruct (Heven eq_refl) as (audio_data & -> & Hlen).
      destruct audio_data as [| s audio_data]; [cbn in Hlen; lia |].
      cbn [List.length Nat.eqb]. eauto. }
  destruct (wave_readframes audio_bytes) as [[| b frames] | e].
  - rewrite Hcases. split; [| split].
    + split; [discriminate |].
      intros [[e He] | (frames & [= <-] & Hodd)]; discriminate.
    + tauto.
    + intros z [= <-]. auto.
  - destruct (Nat.odd (List.length (b :: frames))) eqn:Hparity.
    + rewrite Hcases. split; [| split].
      * split; [intros _; right; eauto | reflexivity].
      * split; discriminate.
      * intros z [= <-]. auto.
    + destruct Hcases as [f ->]. split; [| split].
      * split; [discriminate |].
        intros [[e He] | (frames' & [= <-] & Hodd)];
          [discriminate | congruence].
      * split; discriminate.
      * discriminate.
  - rewrite Hcases. split; [| split].
    + split; [intros _; left; eauto | reflexivity].
    + split; discriminate.
    + intros z [= <-]. auto.
Qed.

(** X2: on a recording whose samples all lie in -181 .. 181 the squares do
    not wrap, and the result is the square root of the mean of the exact
    squares, in [float64]. *)
Theorem check_audio_volume_quiet
    (wave_readframes : list Byte.byte -> outcome (list Byte.byte))
    (audio_bytes frames : list Byte.byte) (audio_data : list Z) :
  wave_readframes audio_bytes = Ret frames ->
  frombuffer_int16 frames = Ret audio_data ->
  audio_data <> [] ->
  Forall (fun s => -181 <= s <= 181) audio_data ->
  check_audio_volume wave_readframes audio_bytes
  = Ret (PyFloat
           (np_sqrt
              (PrimFloat.div
                 (float_of_Z (exact_square_sum audio_data))
                 (float_of_Z (Z.of_nat (List.length audio_data)))))).
Proof.
  intros Hread Hdecode Hsome Hquiet.
  unfold check_audio_volume, check_audio_volume_body, try_except, bind.
  rewrite Hread.
  destruct frames as [| b frames];
    [cbn in Hdecode; congruence |].
  cbn [List.length Nat.eqb]. rewrite Hdecode.
  destruct audio_data as [| s audio_data]; [congruence |].
  cbn [List.length Nat.eqb].
  unfold np_mean. rewrite (square_int16_small _ Hquiet).
  unfold square_int16. now rewrite length_map.
Qed.

(** A recording of the one sample 100. *)
Lemma check_audio_volume_quiet_witness :
  check_audio_volume (fun audio_bytes => Ret (List.skipn 44 audio_bytes))
    (wav_one_sample Byte.x64 Byte.x00)
  = Ret (PyFloat 100%float).
Proof.
  refine (check_audio_volume_quiet
            (fun audio_bytes => Ret (List.skipn 44 audio_bytes))
            (wav_one_sample Byte.x64 Byte.x00) [Byte.x64; Byte.x00] [100]
            eq_refl eq_refl _ _).
  - discriminate.
  - constructor; [split; discriminate | constructor].
Defined.

End VolumeResults.

(** ** The candidate-model loop: what a result tells *)

Section RequesterResults.
Import Requester.

Variable generate_content : nat -> pystr -> outcome pystr.

Lemma for_models_calls (models : list pystr) :
  forall (i : nat) (st : loop_state),
    exists made rest,
      models = made ++ rest
      /\ calls (for_models generate_content models i st) = calls st ++ made.
Proof.
  induction models as [| model_name models IH]; intros i st.
  - exists [], []. cbn. now rewrite app_nil_r.
  - cbn [for_models].
    destruct (generate_content i model_name) as [[| c text] | e];
      cbn [truthy].
    + edestruct (IH (S i)) as (made & rest & Hmodels & Hcalls).
      exists (model_name :: made), rest. rewrite Hcalls. cbn [calls].
      rewrite <- app_assoc. now subst models.
    + exists [model_name], models. auto.
    + edestruct (IH (S i)) as (made & rest & Hmodels & Hcalls).
      exists (model_name :: made), rest. rewrite Hcalls. cbn [calls].
      rewrite <- app_assoc. now subst models.
Qed.

(** X3: whatever the service answers, the loop asks the candidates in their
    order, each at most once, and never one that is not in the list: the
    models asked are a prefix of the list. *)
Theorem calls_are_a_prefix (models : list pystr) :
  exists rest,
    models = calls (run_loop generate_content models) ++ rest
    /\ (List.length (calls (run_loop generate_content models))
        <= List.length models)%nat.
Proof.
  destruct (for_models_calls models 0 (LoopState None None []))
    as (made & rest & Hmodels & Hcalls).
  unfold run_loop. rewrite Hcalls. cbn [calls app].
  exists rest. split; [exact Hmodels |].
  rewrite Hmodels, length_app. lia.
Qed.

(** Either every call of a pass is unusable, or there is a first usable
    one. *)
Lemma first_usable_or_none (models : list pystr) :
  forall i,
    all_unusable generate_content models i
    \/ exists pre model_name post text,
         models = pre ++ model_name :: post
         /\ all_unusable generate_content pre i
         /\ generate_content (i + List.length pre) model_name = Ret text
         /\ truthy text = true.
Proof.
  induction models as [| model_name models IH]; intros i.
  - left. intros [| j] x Hx; discriminate.
  - destruct (unusable (generate_content i model_name)) eqn:Hhere.
    + destruct (IH (S i)) as [Hall | (pre & m & post & text & -> & Hpre & Hm & Ht)].
      * left. intros [| j] x Hx.
        -- injection Hx as <-. now rewrite Nat.add_0_r.
        -- rewrite Nat.add_succ_r. now apply (Hall j).
      * right. exists (model_name :: pre), m, post, text.
        split; [reflexivity |]. split; [| split; [| exact Ht]].
        -- intros [| j] x Hx.
           ++ injection Hx as <-. now rewrite Nat.add_0_r.
           ++ rewrite Nat.add_succ_r. now apply (Hpre j).
        -- cbn [List.length]. now rewrite Nat.add_succ_r.
    + right. destruct (generate_content i model_name) as [text | e] eqn:Hcall;
        [| discriminate].
      exists [], model_name, models, text. cbn [List.length app].
      rewrite Nat.add_0_r. repeat split; [| exact Hcall |].
      * intros [| j] x Hx; discriminate.
      * cbn in Hhere. now destruct (truthy text).
Qed.

(** X4: a successful analysis carries a text that is not empty, the answer
    of the last model asked, and every model asked before it was unusable;
    the analysis fails only when every candidate was asked and was unusable,
    and the error it reports is the one of the last call that raised. *)
Theorem analysis_result_sound (models : list pystr) :
  match analyze generate_content models with
  | Analysed text =>
      truthy text = true
      /\ exists pre model_name post,
           models = pre ++ model_name :: post
           /\ all_unusable generate_content pre 0
           /\ generate_content (List.length pre) model_name = Ret text
           /\ calls (run_loop generate_content models) = pre ++ [model_name]
  | AnalysisFailed reported =>
      all_unusable generate_content models 0
      /\ calls (run_loop generate_content models) = models
      /\ reported = last_raised generate_content models 0 None
  end.
Proof.
  destruct (first_usable_or_none models 0)
    as [Hall | (pre & m & post & text & -> & Hpre & Hm & Ht)].
  - destruct (analyze_exhausted _ _ Hall) as [-> Hcalls]. auto.
  - cbn [Nat.add] in Hm.
    destruct (analyze_first_usable _ pre m post text Hpre Hm Ht)
      as [-> Hcalls].
    split; [exact Ht |]. exists pre, m, post. auto.
Qed.

End RequesterResults.

(** ** Section extraction: trimmed results, and responses in the asked form *)

Section ExtractResults.
Import Re Text Extractor.
Open Scope N_scope.

Lemma lstrip_head (s : pystr) :
  lstrip s = []
  \/ exists c rest, lstrip s = c :: rest /\ isspace c = false.
Proof.
  induction s as [| c s IH]; [auto |].
  cbn [lstrip]. destruct (isspace c) eqn:Hc; [exact IH | eauto].
Qed.

Lemma lstrip_fixed (c : N) (s : pystr) :
  isspace c = false -> lstrip (c :: s) = c :: s.
Proof. intros Hc. cbn [lstrip]. now rewrite Hc. Qed.

Lemma lstrip_idempotent (s : pystr) : lstrip (lstrip s) = lstrip s.
Proof.
  destruct (lstrip_head s) as [-> | (c & rest & -> & Hc)];
    [reflexivity | now apply lstrip_fixed].
Qed.

Lemma lstrip_before_nonspace (l m : pystr) (c : N) :
  isspace c = false -> lstrip (l ++ c :: m) = lstrip l ++ c :: m.
Proof.
  intros Hc. induction l as [| x l IH].
  - cbn [app]. now rewrite lstrip_fixed.
  - cbn [app lstrip]. destruct (isspace x); [exact IH | reflexivity].
Qed.

Lemma rstrip_cons (c : N) (s : pystr) :
  isspace c = false -> rstrip (c :: s) = c :: rstrip s.
Proof.
  intros Hc. unfold rstrip. cbn [List.rev].
  rewrite (lstrip_before_nonspace _ [] _ Hc), rev_app_distr. reflexivity.
Qed.

Lemma rstrip_idempotent (s : pystr) : rstrip (rstrip s) = rstrip s.
Proof. unfold rstrip. now rewrite rev_involutive, lstrip_idempotent. Qed.

(** Trimming what is trimmed changes nothing. *)
Lemma strip_idempotent (s : pystr) : strip (strip s) = strip s.
Proof.
  unfold strip.
  destruct (lstrip_head s) as [-> | (c & rest & -> & Hc)]; [reflexivity |].
  rewrite (rstrip_cons _ _ Hc), (lstrip_fixed _ _ Hc), (rstrip_cons _ _ Hc).
  now rewrite rstrip_idempotent.
Qed.

(** X5: what [extract_section] returns for a label without special
    characters is trimmed: trimming it again changes nothing. *)
Theorem extract_section_trimmed (text label : pystr) :
  literal_label label ->
  exists s, extract_section text label = Some (Ret s) /\ strip s = s.
Proof.
  intros Hlit. exists (section_between text label).
  split; [now apply extract_section_literal |].
  unfold section_between.
  destruct (after_first (bracketed label) text);
    [apply strip_idempotent | reflexivity].
Qed.

End ExtractResults.

Lemma extract_section_trimmed_witness :
  exists s,
    Extractor.extract_section
      (u "[To-do List]   call Kim   [Detailed Summary] x")
      Extractor.todo_label
    = Some (Ret s)
    /\ Extractor.strip s = s.
Proof.
  exact (extract_section_trimmed
           (u "[To-do List]   call Kim   [Detailed Summary] x") _
           (proj1 (proj2 page_labels_literal))).
Defined.

Section ResponseForm.
Import Re Text Extractor.
Open Scope N_scope.

Lemma after_first_skip (p' pre t : pystr) :
  ~ In 91 pre ->
  after_first (91 :: p') (pre ++ t) = after_first (91 :: p') t.
Proof.
  intros Hpre. induction pre as [| c pre IH]; [reflexivity |].
  cbn [app after_first starts_with].
  destruct (91 =? c) eqn:Hc.
  - apply N.eqb_eq in Hc. destruct Hpre. now left.
  - cbn [andb]. apply IH. intros Hin. apply Hpre. now right.
Qed.

Lemma starts_with_closed_label (l : pystr) :
  forall l' x,
    ~ In 93 l -> ~ In 93 l' ->
    starts_with (l ++ [93]) (l' ++ 93 :: x) = true -> l = l'.
Proof.
  induction l as [| a l IH]; intros [| b l'] x Hl Hl' Hstarts.
  - reflexivity.
  - cbn [starts_with app] in Hstarts. apply andb_prop in Hstarts as [Hb _].
    apply N.eqb_eq in Hb. destruct Hl'. now left.
  - cbn [starts_with app] in Hstarts. apply andb_prop in Hstarts as [Ha _].
    apply N.eqb_eq in Ha. destruct Hl. now left.
  - cbn [starts_with app] in Hstarts. apply andb_prop in Hstarts as [Hab Hrest].
    apply N.eqb_eq in Hab as <-. f_equal.
    apply (IH l' x); [| | exact Hrest]; intros Hin; [apply Hl | apply Hl'];
      now right.
Qed.

Lemma until_bracket_body (b rest : pystr) :
  ~ In 91 b ->
  rest = [] \/ (exists r, rest = 91 :: r) ->
  until_bracket (b ++ rest) = b.
Proof.
  intros Hb Hrest. induction b as [| c b IH].
  - destruct Hrest as [-> | [r ->]]; reflexivity.
  - cbn [app until_bracket]. destruct (c =? 91) eqn:Hc.
    + apply N.eqb_eq in Hc. destruct Hb. now left.
    + f_equal. apply IH. intros Hin. apply Hb. now right.
Qed.

Lemma literal_label_no_bracket (l : pystr) : literal_label l -> ~ In 91 l.
Proof. intros Hlit Hin. specialize (Hlit _ Hin). discriminate. Qed.

(** In a response of the asked form, what follows the first bracketed
    label is the body of its section, then the sections after it. *)
Lemma after_first_section (sections : list (pystr * pystr)) (l b : pystr) :
  (forall l' b', In (l', b') sections ->
                 literal_label l' /\ ~ In 93 l' /\ ~ In 91 b') ->
  NoDup (List.map fst sections) ->
  In (l, b) sections ->
  forall preamble,
    ~ In 91 preamble ->
    exists rest,
      after_first (bracketed l) (Page.sections_text preamble sections)
      = Some (b ++ rest)
      /\ (rest = [] \/ exists r, rest = 91 :: r).
Proof.
  unfold Page.sections_text.
  induction sections as [| [l' b'] sections IH];
    intros Hform Hdistinct Hin preamble Hpre; [destruct Hin |].
  unfold bracketed at 1. cbn [app].
  rewrite (after_first_skip _ _ _ Hpre).
  cbn [List.map List.concat fst snd].
  set (following := List.concat
         (List.map (fun s => bracketed (fst s) ++ snd s) sections)).
  assert (Hfollowing : following = [] \/ exists r, following = 91 :: r).
  { subst following. destruct sections as [| [l2 b2] sections];
      [now left | right]. cbn. eauto. }
  destruct (Hform l' b' (or_introl eq_refl)) as (Hlit' & Hclosed' & Hbody').
  inversion Hdistinct as [| ? ? Hfresh Hdistinct']; subst.
  destruct Hin as [[= -> ->] | Hin].
  - exists following. split; [| exact Hfollowing].
    change (91 :: l ++ [93]) with (bracketed l).
    rewrite <- app_assoc.
    destruct (bracketed l ++ b ++ following) eqn:Htext;
      [discriminate |].
    cbn [after_first]. rewrite <- Htext, starts_with_app.
    now rewrite skipn_app, skipn_all, Nat.sub_diag.
  - destruct (Hform l b (or_intror Hin)) as (Hlit & Hclosed & Hbody).
    assert (Hne : l <> l').
    { intros ->. apply Hfresh.
      change l' with (fst (l', b)). now apply in_map. }
    unfold bracketed at 1. cbn [app after_first starts_with].
    rewrite N.eqb_refl. cbn [andb].
    rewrite <- !app_assoc. cbn [app].
    destruct (starts_with (l ++ [93]) (l' ++ 93 :: b' ++ following))
      eqn:Hstarts.
    { destruct Hne.
      exact (starts_with_closed_label _ _ _ Hclosed Hclosed' Hstarts). }
    replace (l' ++ 93 :: b' ++ following)
      with ((l' ++ 93 :: b') ++ following)
      by (now rewrite <- app_assoc).
    change (91 :: l ++ [93]) with (bracketed l) in IH |- *.
    unfold bracketed at 1. cbn [app].
    rewrite after_first_skip.
    + apply (IH (fun l2 b2 H => Hform l2 b2 (or_intror H)) Hdistinct' Hin []).
      auto.
    + rewrite in_app_iff. cbn [In].
      intros [H | [H | H]];
        [exact (literal_label_no_bracket _ Hlit' H) | discriminate | auto].
Qed.

(** X6: in a response of the form the prompt asks for (some text without
    a bracket, then sections, each a bracketed label and a body without an
    opening bracket, the labels distinct, without special characters and
    without a closing bracket), [extract_section] returns the body of the
    section of the label, trimmed, wherever the section stands. *)
Theorem sections_round_trip (preamble : pystr)
    (sections : list (pystr * pystr)) (l b : pystr) :
  ~ In 91 preamble ->
  (forall l' b', In (l', b') sections ->
                 literal_label l' /\ ~ In 93 l' /\ ~ In 91 b') ->
  NoDup (List.map fst sections) ->
  In (l, b) sections ->
  extract_section (Page.sections_text preamble sections) l
  = Some (Ret (strip b)).
Proof.
  intros Hpre Hform Hdistinct Hin.
  destruct (Hform l b Hin) as (Hlit & _ & Hbody).
  rewrite (extract_section_literal _ _ Hlit). unfold section_between.
  destruct (after_first_section _ _ _ Hform Hdistinct Hin _ Hpre)
    as (rest & -> & Hrest).
  now rewrite (until_bracket_body _ _ Hbody Hrest).
Qed.

End ResponseForm.

(** A concrete [In x l] has no proof when [x] is none of the elements. *)
Ltac not_among :=
  let H := fresh "H" in
  intros H; vm_compute in H;
  repeat (destruct H as [H | H]; [discriminate H |]); exact H.

(** The three sections of the page, after a line of text. *)
Lemma sections_round_trip_witness :
  Extractor.extract_section
    (Page.sections_text (u "Here is the record." ++ [10%N])
       [(Extractor.three_line_label, [10%N] ++ u "foo" ++ [10%N]);
        (Extractor.todo_label, [10%N] ++ u "- bar" ++ [10%N]);
        (Extractor.detailed_label, [10%N] ++ u "baz")])
    Extractor.todo_label
  = Some (Ret (u "- bar")).
Proof.
  refine (sections_round_trip (u "Here is the record." ++ [10%N])
            [(Extractor.three_line_label, [10%N] ++ u "foo" ++ [10%N]);
             (Extractor.todo_label, [10%N] ++ u "- bar" ++ [10%N]);
             (Extractor.detailed_label, [10%N] ++ u "baz")]
            Extractor.todo_label ([10%N] ++ u "- bar" ++ [10%N]) _ _ _ _).
  - not_among.
  - intros l' b' [[= <- <-] | [[= <- <-] | [[= <- <-] | []]]];
      (split; [| split; not_among]).
    + exact (proj1 page_labels_literal).
    + exact (proj1 (proj2 page_labels_literal)).
    + exact (proj2 (proj2 page_labels_literal)).
  - repeat constructor; not_among.
  - right; left; reflexivity.
Defined.

Section ExtractedFromText.
Import Text Extractor.
Open Scope N_scope.

Lemma occurs_intro (p pre post : pystr) : occurs p (pre ++ p ++ post) = true.
Proof.
  unfold occurs.
  now destruct (after_first_complete p pre post) as [body ->].
Qed.

Lemma lstrip_suffix (s : pystr) : exists a, s = a ++ lstrip s.
Proof.
  induction s as [| c s [a IH]]; [now exists [] |].
  cbn [lstrip]. destruct (isspace c).
  - exists (c :: a). cbn. now rewrite <- IH.
  - now exists [].
Qed.

Lemma rstrip_prefix (s : pystr) : exists c, s = rstrip s ++ c.
Proof.
  unfold rstrip. destruct (lstrip_suffix (List.rev s)) as [a Ha].
  exists (List.rev a).
  rewrite <- rev_app_distr, <- Ha. now rewrite rev_involutive.
Qed.

Lemma strip_inside (s : pystr) : exists a c, s = a ++ strip s ++ c.
Proof.
  unfold strip. destruct (lstrip_suffix s) as [a Ha].
  destruct (rstrip_prefix (lstrip s)) as [c Hc].
  exists a, c. now rewrite <- Hc.
Qed.

Lemma until_bracket_prefix (s : pystr) : exists r, s = until_bracket s ++ r.
Proof.
  induction s as [| c s [r IH]]; [now exists [] |].
  cbn [until_bracket]. destruct (c =? 91).
  - now exists (c :: s).
  - exists r. cbn. now rewrite <- IH.
Qed.

(** X7: what [extract_section] returns for a label without special
    characters is a piece of the text as it stands there: nothing is added,
    left out in the middle or put in another order. *)
Theorem extract_section_from_text (text label : pystr) :
  literal_label label ->
  exists s, extract_section text label = Some (Ret s)
            /\ occurs s text = true.
Proof.
  intros Hlit. exists (section_between text label).
  split; [now apply extract_section_literal |].
  unfold section_between.
  destruct (after_first (bracketed label) text) as [body |] eqn:Hbody.
  - destruct (after_first_sound _ _ _ Hbody) as (pre & -> & _).
    destruct (until_bracket_prefix body) as [r Hr].
    destruct (strip_inside (until_bracket body)) as (a & c & Hs).
    rewrite Hr, Hs at 2.
    replace (pre ++ bracketed label
             ++ (a ++ strip (until_bracket body) ++ c) ++ r)
      with ((pre ++ bracketed label ++ a)
            ++ strip (until_bracket body) ++ (c ++ r))
      by (now rewrite <- !app_assoc).
    apply occurs_intro.
  - apply (occurs_intro [] [] text).
Qed.

End ExtractedFromText.

Lemma extract_section_from_text_witness :
  exists s,
    Extractor.extract_section (u "[3-Line Summary] a b [x] c")
      Extractor.three_line_label
    = Some (Ret s)
    /\ Text.occurs s (u "[3-Line Summary] a b [x] c") = true.
Proof.
  exact (extract_section_from_text (u "[3-Line Summary] a b [x] c") _
           (proj1 page_labels_literal)).
Defined.

(** ** The notification: the channel, and the fields in the message *)

Section MessageResults.
Import Text Slack.
Open Scope N_scope.

(** X8: the channel of a payload always starts with ['#'] or ['C']; a
    channel that is empty goes out as ["#"]. *)
Theorem payload_channel_has_sigil (now channel : pystr)
    (summary_data : pydict) (attendants context : pystr) :
  (startswith1
     (payload_channel
        (slack_payload now channel summary_data attendants context)) 35
   || startswith1
        (payload_channel
           (slack_payload now channel summary_data attendants context)) 67
   = true)
  /\ payload_channel (slack_payload now [] summary_data attendants context)
     = [35].
Proof.
  split; [| reflexivity]. cbn [slack_payload payload_channel].
  destruct (normalize_channel_sigil channel) as [-> | ->];
    [reflexivity | apply Bool.orb_true_r].
Qed.

(** X9: the message reads [summary_data] at its three keys only, and a key
    that is missing counts as an empty text: no [KeyError], no heading. With
    nothing but the time, the message is the header and an empty line. *)
Theorem build_message_missing_keys (now attendants context : pystr)
    (summary_data : pydict) :
  build_message now attendants context summary_data
  = build_message now attendants context
      [("three_line"%string, dict_item summary_data "three_line");
       ("todo"%string, dict_item summary_data "todo");
       ("detailed"%string, dict_item summary_data "detailed")]
  /\ build_message now [] [] [] = header_open ++ now ++ header_close ++ [10].
Proof.
  split.
  - now rewrite 2 build_message_assembled.
  - unfold build_message. cbn. now rewrite <- !app_assoc.
Qed.

Lemma occurs_in_render_present (i : inputs) (p : part) (ps : list part) :
  In p ps -> present i p = true ->
  exists pre post, render_present i ps = pre ++ render i p ++ post.
Proof.
  unfold render_present. induction ps as [| q ps IH]; [intros [] |].
  intros [<- | Hin] Hp.
  - cbn [List.filter]. rewrite Hp. cbn [List.map List.concat].
    now exists [], (List.concat (List.map (render i)
                                  (List.filter (present i) ps))).
  - destruct (IH Hin Hp) as (pre & post & Heq).
    cbn [List.filter]. destruct (present i q).
    + cbn [List.map List.concat]. rewrite Heq.
      exists (render i q ++ pre), post. now rewrite <- app_assoc.
    + eauto.
Qed.

(** X10: the message starts with the header and its time, and every part
    whose field is not empty stands in it whole: its heading, the field as
    it was given, and what closes it. *)
Theorem present_parts_stand_whole (now attendants context : pystr)
    (summary_data : pydict) :
  starts_with (header_open ++ now ++ header_close)
    (build_message now attendants context summary_data) = true
  /\ forall p,
       present (Inputs now attendants context summary_data) p = true ->
       occurs (render (Inputs now attendants context summary_data) p)
              (build_message now attendants context summary_data) = true.
Proof.
  rewrite build_message_assembled. unfold assembled. split.
  - change (render_present (Inputs now attendants context summary_data)
              [Header; Attendees; Context])
      with ((header_open ++ now ++ header_close)
            ++ render_present (Inputs now attendants context summary_data)
                 [Attendees; Context]).
    rewrite <- app_assoc. apply starts_with_app.
  - intros p Hp.
    assert (Hwhere : In p [Header; Attendees; Context]
                     \/ In p [Brief; ActionItems; Detailed])
      by (destruct p; cbn; auto 10).
    destruct Hwhere as [Hin | Hin];
      destruct (occurs_in_render_present _ _ _ Hin Hp) as (pre & post & ->).
    + rewrite <- !app_assoc. apply occurs_intro.
    + rewrite (app_assoc _ [10]), (app_assoc _ pre), <- !app_assoc.
      rewrite (app_assoc _ [10]), (app_assoc _ pre).
      apply occurs_intro.
Qed.

End MessageResults.

(** ** Saving the recording *)

Section FilesResults.
Import Files.
Open Scope N_scope.

Lemma pystr_eqb_eq (a : pystr) : forall b, pystr_eqb a b = true <-> a = b.
Proof.
  induction a as [| x a IH]; intros [| y b]; cbn [pystr_eqb];
    try (split; [discriminate | discriminate]); [tauto |].
  rewrite Bool.andb_true_iff, N.eqb_eq, IH.
  split; [intros [-> ->]; reflexivity | intros [= -> ->]; auto].
Qed.

Lemma pystr_eqb_refl (a : pystr) : pystr_eqb a a = true.
Proof. now apply pystr_eqb_eq. Qed.

Lemma pystr_eqb_neq (a b : pystr) : a <> b -> pystr_eqb a b = false.
Proof.
  intros Hne. destruct (pystr_eqb a b) eqn:Heq; [| reflexivity].
  now apply pystr_eqb_eq in Heq.
Qed.

Lemma before_last_slash_none (b : pystr) :
  ~ In 47 b -> before_last_slash b = None.
Proof.
  induction b as [| c b IH]; [reflexivity |]. intros Hb.
  cbn [before_last_slash]. rewrite IH by (intros H; apply Hb; now right).
  destruct (c =? 47) eqn:Hc; [| reflexivity].
  apply N.eqb_eq in Hc. destruct Hb. now left.
Qed.

Lemma before_last_slash_app (a b : pystr) :
  ~ In 47 b -> before_last_slash (a ++ 47 :: b) = Some a.
Proof.
  intros Hb. induction a as [| c a IH].
  - cbn [app before_last_slash]. now rewrite (before_last_slash_none _ Hb).
  - cbn [app before_last_slash]. now rewrite IH.
Qed.

Lemma recording_parent (timestamp : pystr) :
  ~ In 47 timestamp ->
  before_last_slash (recording_path timestamp) = Some (u "recordings").
Proof.
  intros Hts.
  change (recording_path timestamp)
    with (u "recordings" ++ 47 :: (u "meeting_" ++ timestamp ++ u ".wav")).
  apply before_last_slash_app. rewrite !in_app_iff.
  intros [H | [H | H]]; [revert H; not_among | auto | revert H; not_among].
Qed.

Lemma recording_path_not_directory (timestamp : pystr) :
  recording_path timestamp <> u "recordings".
Proof.
  intros H. apply (f_equal (@List.length N)) in H.
  unfold recording_path in H. rewrite !length_app in H.
  cbn in H. lia.
Qed.

Lemma recording_path_injective (t1 t2 : pystr) :
  recording_path t1 = recording_path t2 -> t1 = t2.
Proof.
  unfold recording_path. intros H.
  apply app_inv_head in H. now apply app_inv_tail in H.
Qed.

(** What a save leaves, where it can be made. *)
Lemma save_audio_file_run (fs : filesystem) (timestamp : pystr)
    (audio_bytes : list Byte.byte) :
  ~ In 47 timestamp ->
  fs (u "recordings") = None \/ fs (u "recordings") = Some Dir ->
  fs (recording_path timestamp) <> Some Dir ->
  exists fs',
    save_audio_file timestamp audio_bytes fs
    = (Ret (recording_path timestamp), fs')
    /\ forall p,
         fs' p = if pystr_eqb p (recording_path timestamp)
                 then Some (File audio_bytes)
                 else if pystr_eqb p (u "recordings") then Some Dir
                      else fs p.
Proof.
  intros Hts Hdir Hfile.
  assert (Hne : pystr_eqb (recording_path timestamp) (u "recordings") = false)
    by apply pystr_eqb_neq, recording_path_not_directory.
  unfold save_audio_file, seq, path_exists, pure, makedirs, write_binary,
    parent_error.
  rewrite (recording_parent _ Hts).
  destruct Hdir as [Hdir | Hdir]; rewrite Hdir; cbn [negb].
  - rewrite Hdir. unfold fs_set at 1 2 3. rewrite pystr_eqb_refl, Hne.
    destruct (fs (recording_path timestamp)) as [[| c] |] eqn:Hthere;
      [now destruct Hfile | |]; eexists; (split; [reflexivity |]);
      intros p; reflexivity.
  - rewrite Hdir.
    destruct (fs (recording_path timestamp)) as [[| c] |] eqn:Hthere;
      [now destruct Hfile | |]; eexists; (split; [reflexivity |]);
      intros p; unfold fs_set;
      destruct (pystr_eqb p (recording_path timestamp)); try reflexivity;
      destruct (pystr_eqb p (u "recordings")) eqn:Hp; try reflexivity;
      apply pystr_eqb_eq in Hp; now subst p.
Qed.

Lemma save_audio_file_saved (fs : filesystem) (timestamp : pystr)
    (audio_bytes : list Byte.byte) :
  ~ In 47 timestamp ->
  fs (u "recordings") = None \/ fs (u "recordings") = Some Dir ->
  fs (recording_path timestamp) <> Some Dir ->
  exists fs',
    save_audio_file timestamp audio_bytes fs
    = (Ret (recording_path timestamp), fs')
    /\ read_binary fs' (recording_path timestamp) = Some audio_bytes.
Proof.
  intros Hts Hdir Hfile.
  destruct (save_audio_file_run fs timestamp audio_bytes Hts Hdir Hfile)
    as (fs' & Hrun & Hfs').
  exists fs'. split; [exact Hrun |].
  unfold read_binary. now rewrite Hfs', pystr_eqb_refl.
Qed.

(** X11: where the directory [recordings] is there or can be made, and the
    path of the recording is not taken by a directory, [save_audio_file]
    returns [recordings/meeting_<timestamp>.wav]; afterwards the file holds
    the bytes as they were given, [recordings] is a directory, and every
    other path is as before. *)
Theorem save_audio_file_writes (fs : filesystem) (timestamp : pystr)
    (audio_bytes : list Byte.byte) :
  ~ In 47 timestamp ->
  fs (u "recordings") = None \/ fs (u "recordings") = Some Dir ->
  fs (recording_path timestamp) <> Some Dir ->
  exists fs',
    save_audio_file timestamp audio_bytes fs
    = (Ret (u "recordings/meeting_" ++ timestamp ++ u ".wav"), fs')
    /\ read_binary fs' (u "recordings/meeting_" ++ timestamp ++ u ".wav")
       = Some audio_bytes
    /\ fs' (u "recordings") = Some Dir
    /\ forall p,
         p <> u "recordings/meeting_" ++ timestamp ++ u ".wav" ->
         p <> u "recordings" ->
         fs' p = fs p.
Proof.
  intros Hts Hdir Hfile.
  destruct (save_audio_file_run fs timestamp audio_bytes Hts Hdir Hfile)
    as (fs' & Hrun & Hfs').
  exists fs'. fold (recording_path timestamp).
  split; [exact Hrun |]. unfold read_binary. rewrite !Hfs'.
  rewrite pystr_eqb_refl.
  rewrite (pystr_eqb_neq (u "recordings") (recording_path timestamp))
    by (intros H; symmetry in H; exact (recording_path_not_directory _ H)).
  rewrite pystr_eqb_refl. repeat split.
  intros p Hp Hp'. rewrite Hfs'.
  now rewrite (pystr_eqb_neq _ _ Hp), (pystr_eqb_neq _ _ Hp').
Qed.

(** X12: where [recordings] is a file, not a directory, [save_audio_file]
    raises and nothing is written: [os.path.exists] is true of the file, so
    that no directory is made. *)
Theorem save_audio_file_blocked_by_file (fs : filesystem)
    (timestamp : pystr) (audio_bytes content : list Byte.byte) :
  ~ In 47 timestamp ->
  fs (u "recordings") = Some (File content) ->
  save_audio_file timestamp audio_bytes fs
  = (Raise (Exception "NotADirectoryError" "Not a directory"), fs).
Proof.
  intros Hts Hfile.
  unfold save_audio_file, seq, path_exists, pure, makedirs, write_binary,
    parent_error.
  rewrite Hfile. cbn [negb]. now rewrite (recording_parent _ Hts), Hfile.
Qed.

(** X13: two recordings saved one after the other, at times that differ,
    are two files, each with its bytes; saved at the same time (to the
    second), they are one file, which holds the second recording. *)
Theorem save_audio_file_twice (fs : filesystem) (t1 t2 : pystr)
    (bytes1 bytes2 : list Byte.byte) :
  ~ In 47 t1 -> ~ In 47 t2 ->
  fs (u "recordings") = None \/ fs (u "recordings") = Some Dir ->
  fs (recording_path t1) <> Some Dir ->
  fs (recording_path t2) <> Some Dir ->
  exists fs',
    (_ <~ save_audio_file t1 bytes1 ;; save_audio_file t2 bytes2)%prog fs
    = (Ret (recording_path t2), fs')
    /\ read_binary fs' (recording_path t2) = Some bytes2
    /\ (t1 <> t2 -> read_binary fs' (recording_path t1) = Some bytes1)
    /\ (t1 = t2 -> read_binary fs' (recording_path t1) = Some bytes2).
Proof.
  intros Ht1 Ht2 Hdir Hfile1 Hfile2.
  destruct (save_audio_file_run fs t1 bytes1 Ht1 Hdir Hfile1)
    as (fs1 & Hrun1 & Hfs1).
  assert (Hdir1 : fs1 (u "recordings") = None
                  \/ fs1 (u "recordings") = Some Dir).
  { right. rewrite Hfs1.
    rewrite (pystr_eqb_neq (u "recordings") (recording_path t1))
      by (intros H; symmetry in H; exact (recording_path_not_directory _ H)).
    now rewrite pystr_eqb_refl. }
  assert (Hfile2' : fs1 (recording_path t2) <> Some Dir).
  { rewrite Hfs1. destruct (pystr_eqb _ _); [discriminate |].
    rewrite (pystr_eqb_neq _ _ (recording_path_not_directory t2)).
    exact Hfile2. }
  destruct (save_audio_file_run fs1 t2 bytes2 Ht2 Hdir1 Hfile2')
    as (fs2 & Hrun2 & Hfs2).
  exists fs2. unfold seq. rewrite Hrun1, Hrun2.
  split; [reflexivity |]. unfold read_binary. rewrite !Hfs2.
  rewrite pystr_eqb_refl. split; [reflexivity |]. split.
  - intros Hne.
    rewrite (pystr_eqb_neq (recording_path t1) (recording_path t2))
      by (intros H; apply Hne; now apply recording_path_injective).
    rewrite (pystr_eqb_neq _ _ (recording_path_not_directory t1)).
    now rewrite Hfs1, pystr_eqb_refl.
  - intros ->. now rewrite pystr_eqb_refl.
Qed.

End FilesResults.

(** An empty working directory, and a recording of one sample. *)
Lemma save_audio_file_writes_witness :
  exists fs',
    Files.save_audio_file (u "20240501_101500")
      (Volume.wav_one_sample Byte.x64 Byte.x00) (fun _ => None)
    = (Ret (u "recordings/meeting_" ++ u "20240501_101500" ++ u ".wav"), fs')
    /\ Files.read_binary fs'
         (u "recordings/meeting_" ++ u "20240501_101500" ++ u ".wav")
       = Some (Volume.wav_one_sample Byte.x64 Byte.x00)
    /\ fs' (u "recordings") = Some Files.Dir
    /\ forall p,
         p <> u "recordings/meeting_" ++ u "20240501_101500" ++ u ".wav" ->
         p <> u "recordings" ->
         fs' p = None.
Proof.
  refine (save_audio_file_writes (fun _ => None) (u "20240501_101500")
            (Volume.wav_one_sample Byte.x64 Byte.x00) _ _ _).
  - not_among.
  - now left.
  - discriminate.
Defined.

(** A file named [recordings] in the working directory. *)
Lemma save_audio_file_blocked_by_file_witness :
  Files.save_audio_file (u "20240501_101500") [Byte.x00]
    (fun p => if Files.pystr_eqb p (u "recordings")
              then Some (Files.File []) else None)
  = (Raise (Exception "NotADirectoryError" "Not a directory"),
     fun p => if Files.pystr_eqb p (u "recordings")
              then Some (Files.File []) else None).
Proof.
  refine (save_audio_file_blocked_by_file
            (fun p => if Files.pystr_eqb p (u "recordings")
                      then Some (Files.File []) else None)
            (u "20240501_101500") [Byte.x00] [] _ eq_refl).
  not_among.
Defined.

(** Two clicks within one second. *)
Lemma save_audio_file_twice_witness :
  exists fs',
    (_ <~ Files.save_audio_file (u "20240501_101500") [Byte.x01] ;;
     Files.save_audio_file (u "20240501_101500") [Byte.x02])%prog
      (fun _ => None)
    = (Ret (Files.recording_path (u "20240501_101500")), fs')
    /\ Files.read_binary fs' (Files.recording_path (u "20240501_101500"))
       = Some [Byte.x02].
Proof.
  destruct (save_audio_file_twice (fun _ => None)
              (u "20240501_101500") (u "20240501_101500")
              [Byte.x01] [Byte.x02])
    as (fs' & Hrun & Hsecond & _).
  - not_among.
  - not_among.
  - now left.
  - discriminate.
  - discriminate.
  - exists fs'. split; [exact Hrun | exact Hsecond].
Defined.

(** ** The sidebar *)

Section ConfigResults.
Import Config.

Variable secrets_get : string -> outcome (option pystr).
Variable getenv : string -> option pystr.

(** X14: when the secrets can be read, the script halts at the sidebar
    exactly when neither the secrets nor the environment hold a key that is
    not empty; otherwise it goes on with a key that is not empty, the one
    of the secrets unless that is missing or empty, and with or without a
    chat token. *)
Theorem sidebar_key (from_secrets token_from_secrets : option pystr) :
  secrets_get "GEMINI_API_KEY" = Ret from_secrets ->
  secrets_get "SLACK_BOT_TOKEN" = Ret token_from_secrets ->
  (sidebar secrets_get getenv = Ret Halted
   <-> py_not from_secrets = true
       /\ py_not (getenv "GEMINI_API_KEY") = true)
  /\ (forall api_key slack_token,
        sidebar secrets_get getenv = Ret (Ready api_key slack_token) ->
        api_key <> []
        /\ (py_not from_secrets = false -> from_secrets = Some api_key)
        /\ (py_not from_secrets = true ->
            getenv "GEMINI_API_KEY" = Some api_key)
        /\ slack_token
           = py_or token_from_secrets (getenv "SLACK_BOT_TOKEN")).
Proof.
  intros Hkey Htoken. unfold sidebar, bind. rewrite Hkey, Htoken.
  destruct from_secrets as [[| c k] |];
    destruct (getenv "GEMINI_API_KEY") as [[| c' k'] |]; cbn;
    (split; [split; [intros H; try discriminate H; auto
                    | intros [H1 H2]; try discriminate; reflexivity]
            | intros api_key slack_token H; try discriminate H;
              injection H as <- <-;
              repeat split; try discriminate; auto]).
Qed.

End ConfigResults.

(** A platform without the key, and a key in the environment. *)
Lemma sidebar_key_witness :
  (if String.eqb "GEMINI_API_KEY" "GEMINI_API_KEY"
   then Some (u "k-123") else None)
  = Some (u "k-123").
Proof.
  exact (proj1 (proj2 (proj2
    (proj2 (sidebar_key (fun _ => Ret None)
              (fun key => if String.eqb key "GEMINI_API_KEY"
                          then Some (u "k-123") else None)
              None None eq_refl eq_refl)
       (u "k-123") None eq_refl))) eq_refl).
Defined.

(** ** The page script *)

Section PageResults.
Import Text Extractor Slack Page.

(** The three sections go into the session together. *)
Lemma parse_sections_run (full_result : pystr) :
  exists sections,
    parse_sections full_result = Some sections
    /\ forall w,
         sections w
         = (Ret tt,
            World (files w)
              (dict_set
                 (dict_set
                    (dict_set (session_state w) "res_three"
                       (section_between full_result three_line_label))
                    "res_todo" (section_between full_result todo_label))
                 "res_detailed"
                 (section_between full_result detailed_label))
              (requested w) (posted w) (shown w)).
Proof.
  unfold parse_sections.
  destruct page_labels_literal as (H3 & Htodo & Hdetailed).
  rewrite (extract_section_literal _ _ H3),
    (extract_section_literal _ _ Htodo),
    (extract_section_literal _ _ Hdetailed).
  eexists. split; [reflexivity |]. intros w. reflexivity.
Qed.

Variable generate_content : nat -> pystr -> outcome pystr.
Variable abspath : pystr -> pystr.

(** The body of the [try]: it never raises. *)
Lemma analysis_block_run :
  exists block,
    analysis_block generate_content = Some block
    /\ forall w,
         block w
         = match Requester.analyze generate_content
                   Requester.candidate_models with
           | Requester.AnalysisFailed last_error =>
               (Ret Stopped,
                World (files w) (session_state w)
                  (requested w
                   ++ Requester.calls
                        (Requester.run_loop generate_content
                           Requester.candidate_models))
                  (posted w)
                  (shown w ++ [st_error_analysis_failed last_error]))
           | Requester.Analysed full_result =>
               (Ret Goes_on,
                World (files w)
                  (dict_set
                     (dict_set
                        (dict_set (session_state w) "res_three"
                           (section_between full_result three_line_label))
                        "res_todo" (section_between full_result todo_label))
                     "res_detailed"
                     (section_between full_result detailed_label))
                  (requested w
                   ++ Requester.calls
                        (Requester.run_loop generate_content
                           Requester.candidate_models))
                  (posted w) (shown w))
           end.
Proof.
  unfold analysis_block, Requester.analyze.
  destruct (Requester.conclude _) as [last_error | full_result].
  - eexists. split; [reflexivity |]. intros w. reflexivity.
  - destruct (parse_sections_run full_result) as (sections & -> & Hrun).
    eexists. split; [reflexivity |]. intros w.
    unfold seq, request, modify, pure. now rewrite Hrun.
Qed.

Lemma on_analyze_blocked (timestamp : pystr)
    (audio_bytes : list Byte.byte) (rms_val : pynum) :
  Gate.py_lt rms_val 5 = true ->
  exists click,
    on_analyze generate_content abspath timestamp audio_bytes rms_val = Some click
    /\ forall w,
         click w
         = (Ret Goes_on,
            World (files w) (session_state w) (requested w) (posted w)
              (shown w ++ [volume Gate.st_error_cannot_analyze])).
Proof.
  intros Hlow. unfold on_analyze, Gate.analyze_button. rewrite Hlow.
  eexists. split; [reflexivity |]. intros w. reflexivity.
Qed.

(** X15: with a volume below 5 a click on the analyze button shows the
    message that the recording is silent and does nothing else: no file is
    written, no model is asked, the session is as before. *)
Theorem blocked_click_does_nothing (timestamp : pystr)
    (audio_bytes : list Byte.byte) (rms_val : pynum) :
  Gate.py_lt rms_val 5 = true ->
  exists click,
    on_analyze generate_content abspath timestamp audio_bytes rms_val = Some click
    /\ forall w,
         files (snd (click w)) = files w
         /\ session_state (snd (click w)) = session_state w
         /\ requested (snd (click w)) = requested w
         /\ posted (snd (click w)) = posted w
         /\ click w
            = (Ret Goes_on,
               World (files w) (session_state w) (requested w) (posted w)
                 (shown w ++ [volume Gate.st_error_cannot_analyze])).
Proof.
  intros Hlow.
  destruct (on_analyze_blocked timestamp audio_bytes rms_val Hlow)
    as (click & Hclick & Hrun).
  exists click. split; [exact Hclick |]. intros w. rewrite Hrun. auto.
Qed.

End PageResults.

Section ClickResults.
Import Text Extractor Slack Page.

Variable generate_content : nat -> pystr -> outcome pystr.
Variable abspath : pystr -> pystr.

(** A click that passes the volume check: the recording is saved, then the
    analysis runs; an error of the save ends the script. *)
Lemma on_analyze_run (timestamp : pystr) (audio_bytes : list Byte.byte)
    (rms_val : pynum) :
  Gate.py_lt rms_val 5 = false ->
  exists click block,
    on_analyze generate_content abspath timestamp audio_bytes rms_val = Some click
    /\ analysis_block generate_content = Some block
    /\ forall w,
         click w
         = match Files.save_audio_file timestamp audio_bytes (files w) with
           | (Raise e, fs) =>
               (Raise e,
                World fs (session_state w) (requested w) (posted w)
                  (shown w))
           | (Ret saved_path, fs) =>
               block
                 (World fs (dict_set (session_state w) "saved_path" saved_path)
                    (requested w) (posted w)
                    (shown w ++ [st_info_saved (abspath saved_path)]))
           end.
Proof.
  intros Hpass. unfold on_analyze, Gate.analyze_button. rewrite Hpass.
  destruct (analysis_block_run generate_content) as (block & Hblock & Hrun).
  rewrite Hblock. eexists. exists block. split; [reflexivity |].
  split; [reflexivity |]. intros w.
  unfold seq, on_files, store, show, modify, catch.
  destruct (Files.save_audio_file timestamp audio_bytes (files w))
    as [[saved_path | e] fs]; [| reflexivity].
  cbn [files session_state requested posted shown].
  rewrite Hrun.
  now destruct (Requester.analyze generate_content
                  Requester.candidate_models).
Qed.

Lemma dict_has_set (d : pydict) (k k' : string) (v : pystr) :
  dict_has (dict_set d k v) k'
  = if String.eqb k k' then true else dict_has d k'.
Proof.
  unfold dict_has, dict_set. cbn [dict_get]. now destruct (String.eqb k k').
Qed.

(** X16: when no candidate gives a usable answer, a click that passes the
    volume check ends the script ([st.stop()]) after it has saved the
    recording and asked both models; the session gets the path of the
    recording and nothing else: the results of an earlier analysis stay as
    they were. *)
Theorem failed_analysis_keeps_results (timestamp : pystr)
    (audio_bytes : list Byte.byte) (rms_val : pynum) (w : world) :
  Gate.py_lt rms_val 5 = false ->
  ~ In 47%N timestamp ->
  files w (u "recordings") = None
  \/ files w (u "recordings") = Some Files.Dir ->
  files w (Files.recording_path timestamp) <> Some Files.Dir ->
  Requester.all_unusable generate_content Requester.candidate_models 0 ->
  exists click w',
    on_analyze generate_content abspath timestamp audio_bytes rms_val = Some click
    /\ click w = (Ret Stopped, w')
    /\ session_state w'
       = dict_set (session_state w) "saved_path"
           (Files.recording_path timestamp)
    /\ Files.read_binary (files w') (Files.recording_path timestamp)
       = Some audio_bytes
    /\ requested w' = requested w ++ Requester.candidate_models
    /\ posted w' = posted w.
Proof.
  intros Hpass Hts Hdir Hfile Hall.
  destruct (on_analyze_run timestamp audio_bytes rms_val Hpass)
    as (click & block & Hclick & Hblock & Hrun).
  destruct (analysis_block_run generate_content) as (block' & Hblock' & Hrun').
  rewrite Hblock in Hblock'. injection Hblock' as <-.
  destruct (save_audio_file_saved (files w) timestamp audio_bytes
              Hts Hdir Hfile) as (fs' & Hsave & Hread).
  destruct (analyze_exhausted _ _ Hall) as [Hfailed Hcalls].
  exists click. eexists. split; [exact Hclick |].
  rewrite Hrun, Hsave, Hrun', Hfailed, Hcalls.
  split; [reflexivity |]. cbn [session_state files requested posted].
  auto.
Qed.

(** X17: when a candidate gives a usable answer, the click stores the
    three sections of that answer, taken from the one text in one pass, and
    the results shown afterwards are these three. *)
Theorem successful_analysis_stores_sections (timestamp : pystr)
    (audio_bytes : list Byte.byte) (rms_val : pynum) (w : world)
    (full_result : pystr) :
  Gate.py_lt rms_val 5 = false ->
  ~ In 47%N timestamp ->
  files w (u "recordings") = None
  \/ files w (u "recordings") = Some Files.Dir ->
  files w (Files.recording_path timestamp) <> Some Files.Dir ->
  Requester.analyze generate_content Requester.candidate_models
  = Requester.Analysed full_result ->
  exists click w',
    on_analyze generate_content abspath timestamp audio_bytes rms_val = Some click
    /\ click w = (Ret Goes_on, w')
    /\ dict_get (session_state w') "res_three"
       = Some (section_between full_result three_line_label)
    /\ dict_get (session_state w') "res_todo"
       = Some (section_between full_result todo_label)
    /\ dict_get (session_state w') "res_detailed"
       = Some (section_between full_result detailed_label)
    /\ dict_get (session_state w') "saved_path"
       = Some (Files.recording_path timestamp)
    /\ display w'
       = (Ret (Some (section_between full_result three_line_label,
                     section_between full_result detailed_label,
                     section_between full_result todo_label)), w').
Proof.
  intros Hpass Hts Hdir Hfile Hanalysed.
  destruct (on_analyze_run timestamp audio_bytes rms_val Hpass)
    as (click & block & Hclick & Hblock & Hrun).
  destruct (analysis_block_run generate_content) as (block' & Hblock' & Hrun').
  rewrite Hblock in Hblock'. injection Hblock' as <-.
  destruct (save_audio_file_saved (files w) timestamp audio_bytes
              Hts Hdir Hfile) as (fs' & Hsave & _).
  exists click. eexists. split; [exact Hclick |].
  rewrite Hrun, Hsave, Hrun', Hanalysed.
  split; [reflexivity |]. repeat split.
Qed.

(** X18: a click on the analyze button, whatever comes of it (blocked, the
    save failed, the analysis failed, the sections stored), leaves the three
    results in the session together or not at all, if they were so
    before. *)
Theorem results_stay_together (timestamp : pystr)
    (audio_bytes : list Byte.byte) (rms_val : pynum) (w : world) :
  results_together (session_state w) ->
  exists click,
    on_analyze generate_content abspath timestamp audio_bytes rms_val = Some click
    /\ results_together (session_state (snd (click w))).
Proof.
  intros Htogether.
  destruct (Gate.py_lt rms_val 5) eqn:Hgate.
  - destruct (on_analyze_blocked generate_content abspath timestamp
                audio_bytes rms_val Hgate) as (click & Hclick & Hrun).
    exists click. split; [exact Hclick |]. now rewrite Hrun.
  - destruct (on_analyze_run timestamp audio_bytes rms_val Hgate)
      as (click & block & Hclick & Hblock & Hrun).
    destruct (analysis_block_run generate_content)
      as (block' & Hblock' & Hrun').
    rewrite Hblock in Hblock'. injection Hblock' as <-.
    exists click. split; [exact Hclick |]. rewrite Hrun.
    destruct (Files.save_audio_file timestamp audio_bytes (files w))
      as [[saved_path | e] fs]; [| exact Htogether].
    rewrite Hrun'.
    destruct (Requester.analyze generate_content Requester.candidate_models).
    + cbn [snd session_state]. unfold results_together in *.
      now rewrite !dict_has_set.
    + cbn [snd session_state]. unfold results_together.
      now rewrite !dict_has_set.
Qed.

End ClickResults.

Section ShowAndSend.
Import Text Extractor Slack Page.

(** X19: where the three results are in the session together or not at
    all, showing the results never fails on a missing key; results are
    shown exactly when [res_detailed] is in the session. *)
Theorem display_finds_its_keys (w : world) :
  results_together (session_state w) ->
  exists r,
    display w = (Ret r, w)
    /\ (r = None <-> dict_has (session_state w) "res_detailed" = false).
Proof.
  intros [Hthree Htodo]. unfold display, seq, get, item, getitem, pure.
  destruct (dict_has (session_state w) "res_detailed") eqn:Hshown.
  - unfold dict_has in *.
    destruct (dict_get (session_state w) "res_detailed") as [detailed |]
      eqn:Hdetailed; [| discriminate].
    destruct (dict_get (session_state w) "res_three") as [three |]
      eqn:Hfirst; [| discriminate].
    destruct (dict_get (session_state w) "res_todo") as [todo |]
      eqn:Hsecond; [| discriminate].
    eexists. split; [reflexivity |]. split; discriminate.
  - eexists. split; [reflexivity |]. split; reflexivity.
Qed.

Variable response : Type.
Variable requests_post : string -> pystr -> payload -> outcome response.
Variable res_ok : response -> bool.
Variable res_error : response -> option pystr.
Variable res_str : response -> pystr.

Lemma target_channels_get_hash (selected_channel : pystr) :
  In selected_channel target_channels ->
  normalize_channel selected_channel = 35%N :: selected_channel.
Proof.
  intros [<- | [<- | [<- | []]]]; reflexivity.
Qed.

(** X20: a click on the send button without a token posts nothing.  With a
    token and the results in the session it hands one payload and no more
    to [requests.post], whose text is the message built from the three
    stored results and whose channel, for each channel the page offers, is
    ['#'] and the name chosen.  When the post raises, the exception leaves
    the click as it is, with nothing shown; when it answers, the click
    shows the success, or the error the service names, with the hint to
    invite the bot where the answer mentions [channel_not_found].  The
    files, the session and the models asked are as before in every case. *)
Theorem send_posts_once (slack_token : option pystr)
    (now selected_channel attendants meeting_context : pystr) (w : world) :
  (Config.py_not slack_token = true ->
   on_send response requests_post res_ok res_error res_str slack_token now
     selected_channel attendants meeting_context w
   = (Ret tt,
      World (files w) (session_state w) (requested w) (posted w)
        (shown w ++ [st_error_no_token])))
  /\ (forall token three todo detailed,
        slack_token = Some token ->
        token <> [] ->
        dict_get (session_state w) "res_three" = Some three ->
        dict_get (session_state w) "res_todo" = Some todo ->
        dict_get (session_state w) "res_detailed" = Some detailed ->
        exists r w',
          on_send response requests_post res_ok res_error res_str
            slack_token now selected_channel attendants meeting_context w
          = (r, w')
          /\ posted w'
             = posted w
               ++ [Payload (normalize_channel selected_channel)
                     (build_message now attendants meeting_context
                        [("three_line"%string, three);
                         ("todo"%string, todo);
                         ("detailed"%string, detailed)])]
          /\ (In selected_channel target_channels ->
              List.map payload_channel (posted w')
              = List.map payload_channel (posted w)
                ++ [35%N :: selected_channel])
          /\ files w' = files w
          /\ session_state w' = session_state w
          /\ requested w' = requested w
          /\ match requests_post "https://slack.com/api/chat.postMessage"
                     token
                     (Payload (normalize_channel selected_channel)
                        (build_message now attendants meeting_context
                           [("three_line"%string, three);
                            ("todo"%string, todo);
                            ("detailed"%string, detailed)])) with
             | Raise e => r = Raise e /\ shown w' = shown w
             | Ret res =>
                 r = Ret tt
                 /\ shown w'
                    = shown w
                      ++ (if res_ok res
                          then [st_success_sent selected_channel]
                          else st_error_send_failed (res_error res)
                               :: (if occurs (u "channel_not_found")
                                        (res_str res)
                                   then [st_info_invite_bot] else []))
             end).
Proof.
  split.
  - intros Hnone. unfold on_send. now rewrite Hnone.
  - intros token three todo detailed -> Htoken Hthree Htodo Hdetailed.
    unfold on_send.
    replace (Config.py_not (Some token)) with false
      by (destruct token; [congruence | reflexivity]).
    unfold seq, item, getitem, post, show, modify, pure, of_outcome,
      send_to_slack, slack_payload.
    rewrite Hthree, Htodo, Hdetailed.
    cbn [session_state files posted requested shown].
    assert (Hchannel : In selected_channel target_channels ->
      List.map payload_channel
        (posted w
         ++ [Payload (normalize_channel selected_channel)
               (build_message now attendants meeting_context
                  [("three_line"%string, three); ("todo"%string, todo);
                   ("detailed"%string, detailed)])])
      = List.map payload_channel (posted w) ++ [35%N :: selected_channel]).
    { intros Hin. rewrite map_app. cbn [List.map payload_channel].
      now rewrite (target_channels_get_hash _ Hin). }
    destruct (requests_post _ token _) as [res | e].
    + destruct (res_ok res); [| destruct (occurs _ _)];
        do 2 eexists; (split; [reflexivity |]);
        cbn [posted files session_state requested shown];
        rewrite <- ?app_assoc; cbn [app]; auto 10.
    + do 2 eexists. split; [reflexivity |].
      cbn [posted files session_state requested shown]. auto 10.
Qed.

End ShowAndSend.

(** A recording at volume 3. *)
Lemma blocked_click_does_nothing_witness :
  exists click,
    Page.on_analyze (fun _ _ => Ret (u "x")) (app (u "/app/"))
      (u "20240501_101500") [Byte.x00] (PyFloat 3%float)
    = Some click
    /\ click Page.fresh
       = (Ret Page.Goes_on,
          Page.World (fun _ => None) [] [] []
            [Page.volume Gate.st_error_cannot_analyze]).
Proof.
  destruct (blocked_click_does_nothing (fun _ _ => Ret (u "x"))
              (app (u "/app/")) (u "20240501_101500") [Byte.x00]
              (PyFloat 3%float) eq_refl)
    as (click & Hclick & Hrun).
  exists click. split; [exact Hclick |].
  exact (proj2 (proj2 (proj2 (proj2 (Hrun Page.fresh))))).
Defined.

(** Both models out of quota, in a session that has just started. *)
Lemma failed_analysis_keeps_results_witness :
  exists click w',
    Page.on_analyze (fun _ _ => Raise (Exception "ResourceExhausted" "quota"))
      (app (u "/app/")) (u "20240501_101500") [Byte.x00] (PyFloat 100%float)
    = Some click
    /\ click Page.fresh = (Ret Page.Stopped, w')
    /\ Page.session_state w'
       = Page.dict_set [] "saved_path"
           (Files.recording_path (u "20240501_101500"))
    /\ Files.read_binary (Page.files w')
         (Files.recording_path (u "20240501_101500"))
       = Some [Byte.x00]
    /\ Page.requested w' = Requester.candidate_models
    /\ Page.posted w' = [].
Proof.
  refine (failed_analysis_keeps_results
            (fun _ _ => Raise (Exception "ResourceExhausted" "quota"))
            (app (u "/app/")) (u "20240501_101500") [Byte.x00]
            (PyFloat 100%float) Page.fresh
            eq_refl _ _ _ _).
  - not_among.
  - now left.
  - discriminate.
  - intros j x Hx. reflexivity.
Defined.

(** The first model out of quota, the second with the three sections. *)
Lemma successful_analysis_stores_sections_witness :
  exists click w',
    Page.on_analyze
      (fun i _ => match i with
                  | O => Raise (Exception "ResourceExhausted" "quota")
                  | S _ => Ret (u "[3-Line Summary] a [To-do List] b [Detailed Summary] c")
                  end)
      (app (u "/app/")) (u "20240501_101500") [Byte.x00] (PyFloat 100%float)
    = Some click
    /\ click Page.fresh = (Ret Page.Goes_on, w')
    /\ Slack.dict_get (Page.session_state w') "res_three" = Some (u "a")
    /\ Slack.dict_get (Page.session_state w') "res_todo" = Some (u "b")
    /\ Slack.dict_get (Page.session_state w') "res_detailed" = Some (u "c")
    /\ Slack.dict_get (Page.session_state w') "saved_path"
       = Some (Files.recording_path (u "20240501_101500"))
    /\ Page.display w' = (Ret (Some (u "a", u "c", u "b")), w').
Proof.
  refine (successful_analysis_stores_sections
            (fun i _ => match i with
                        | O => Raise (Exception "ResourceExhausted" "quota")
                        | S _ => Ret (u "[3-Line Summary] a [To-do List] b [Detailed Summary] c")
                        end)
            (app (u "/app/")) (u "20240501_101500") [Byte.x00]
            (PyFloat 100%float) Page.fresh
            (u "[3-Line Summary] a [To-do List] b [Detailed Summary] c")
            eq_refl _ _ _ eq_refl).
  - not_among.
  - now left.
  - discriminate.
Defined.

Lemma results_stay_together_witness :
  exists click,
    Page.on_analyze (fun _ _ => Ret (u "no sections here"))
      (app (u "/app/")) (u "20240501_101500") [Byte.x00] (PyFloat 100%float)
    = Some click
    /\ Page.results_together (Page.session_state (snd (click Page.fresh))).
Proof.
  exact (results_stay_together (fun _ _ => Ret (u "no sections here"))
           (app (u "/app/")) (u "20240501_101500") [Byte.x00]
           (PyFloat 100%float) Page.fresh
           (conj eq_refl eq_refl)).
Defined.

Lemma display_finds_its_keys_witness :
  exists r,
    Page.display Page.fresh = (Ret r, Page.fresh)
    /\ (r = None
        <-> Page.dict_has (Page.session_state Page.fresh) "res_detailed"
            = false).
Proof.
  exact (display_finds_its_keys Page.fresh (conj eq_refl eq_refl)).
Defined.

(** A token, the results of an analysis, the first channel of the page,
    and a service that cannot be reached. *)
Lemma send_posts_once_witness :
  exists r w',
    Page.on_send unit
      (fun _ _ _ => Raise (Exception "ConnectionError" "unreachable"))
      (fun _ => true) (fun _ => None)
      (fun _ => []) (Some (u "xoxb-1")) (u "2024-05-01 10:15")
      [54924; 51032; 47197]%N [] []
      (Page.World (fun _ => None)
         [("res_detailed"%string, u "c"); ("res_todo"%string, u "b");
          ("res_three"%string, u "a")] [] [] [])
    = (r, w')
    /\ List.map Slack.payload_channel (Page.posted w')
       = [[35; 54924; 51032; 47197]%N]
    /\ r = Raise (Exception "ConnectionError" "unreachable")
    /\ Page.shown w' = [].
Proof.
  destruct (proj2
    (send_posts_once unit
       (fun _ _ _ => Raise (Exception "ConnectionError" "unreachable"))
       (fun _ => true) (fun _ => None)
       (fun _ => []) (Some (u "xoxb-1")) (u "2024-05-01 10:15")
       [54924; 51032; 47197]%N [] []
       (Page.World (fun _ => None)
          [("res_detailed"%string, u "c"); ("res_todo"%string, u "b");
           ("res_three"%string, u "a")] [] [] []))
    (u "xoxb-1") (u "a") (u "b") (u "c") eq_refl
    (fun H => match H in _ = l return match l with [] => False | _ => True end
              with eq_refl => I end)
    eq_refl eq_refl eq_refl)
    as (r & w' & Hrun & _ & Hchannel & _ & _ & _ & Hr & Hshown).
  exists r, w'. split; [exact Hrun |]. split; [| split; assumption].
  apply Hchannel. now left.
Defined.
